(** * DECAF callback engine (accel/shared/decaf-callback.c)

    A shallow embedding of the callback registry, the filter tables, the
    translation-cache flush policy and the dispatch helpers of
    [decaf-callback.c], with the properties its description states.

    Conventions.
    - The file-scope statics of the C file are the fields of [State].
    - [register_decaf_flush_translation_cache] is an external call; the
      model appends every call to [flush_log], so "which flushes were
      issued" is the suffix added to that log.
    - [g_malloc] is external too: a registration receives the block it
      returned as the argument [fresh], a [callback_struct] whose address
      is [cb_addr fresh] and whose other fields hold whatever the heap
      held.  [g_malloc] aborts instead of returning NULL, so the
      [cb_struct == NULL] exits are not reachable and are left out.
    - A plugin callback is an external call as well: a dispatch helper
      yields the sequence of calls it makes.  Handlers are taken not to
      touch the registry or the condition flags while a walk is running. *)

From Stdlib Require Import ZArith Lia List Bool.
From stdpp Require Import base option list gmap.

Local Open Scope Z_scope.

(** ** Declarations taken from headers *)

(** Macros and enumerators that [decaf-callback.c] uses and that are
    declared in headers of the emulator: they are parameters here. *)
Class Target := {
  (** [exec/cpu-defs.h]: mask that clears the offset inside a page *)
  TARGET_PAGE_MASK : Z;
  (** [shared/decaf-types-common.h]: the wildcard address *)
  INV_ADDR : Z;
  DECAF_NULL_HANDLE : Z;
  NULL_POINTER_ERROR : Z;
  (** [OpcodeRangeCallbackConditions] *)
  DECAF_USER_TO_USER_ONLY : Z;
  DECAF_USER_TO_KERNEL_ONLY : Z;
  DECAF_KERNEL_TO_USER_ONLY : Z;
  DECAF_KERNEL_TO_KERNEL_ONLY : Z;
  DECAF_ALL : Z
}.

(** A 32-bit guest with 4 KiB pages and one bit per transition class,
    used to run the model on concrete inputs. *)
Definition target32 : Target := {|
  TARGET_PAGE_MASK := -4096;
  INV_ADDR := 0xffffffff;
  DECAF_NULL_HANDLE := 0;
  NULL_POINTER_ERROR := -2;
  DECAF_USER_TO_USER_ONLY := 1;
  DECAF_USER_TO_KERNEL_ONLY := 2;
  DECAF_KERNEL_TO_USER_ONLY := 4;
  DECAF_KERNEL_TO_KERNEL_ONLY := 8;
  DECAF_ALL := 15
|}.

Inductive DECAF_callback_type_t :=
| DECAF_BLOCK_BEGIN_CB
| DECAF_BLOCK_END_CB
| DECAF_INSN_BEGIN_CB
| DECAF_INSN_END_CB
| DECAF_MEM_READ_CB
| DECAF_MEM_WRITE_CB
| DECAF_EIP_CHECK_CB
| DECAF_KEYSTROKE_CB
| DECAF_NIC_REC_CB
| DECAF_NIC_SEND_CB
| DECAF_OPCODE_RANGE_CB
| DECAF_TLB_EXEC_CB
| DECAF_READ_TAINTMEM_CB
| DECAF_WRITE_TAINTMEM_CB.

#[global] Instance DECAF_callback_type_eq_dec : EqDecision DECAF_callback_type_t.
Proof. solve_decision. Defined.

Inductive OCB_t := OCB_CONST | OCB_CONST_NOT | OCB_PAGE | OCB_PAGE_NOT | OCB_ALL.

#[global] Instance OCB_eq_dec : EqDecision OCB_t.
Proof. solve_decision. Defined.

Inductive flush_scope := ALL_CACHE | PAGE_LEVEL.

#[global] Instance flush_scope_eq_dec : EqDecision flush_scope.
Proof. solve_decision. Defined.

(** One call of [register_decaf_flush_translation_cache (scope, addr)]. *)
Definition flush_call : Type := flush_scope * Z.

Abbreviation DECAF_handle := Z.
Abbreviation gva_t := Z.

(** ** Counting tables (shared/decaf-hashtable-wrapper.h) *)

Module Counting.

(** Modelled from the spec: the counting hashtable of
    [decaf-hashtable-wrapper.h], whose code is not part of this file.  A
    counting set maps a key to a positive count. *)
Abbreviation counting_hashtable := (gmap Z positive).

(** Modelled from the spec: a counting map sends a key to a counting set. *)
Abbreviation counting_hashmap := (gmap Z (gmap Z positive)).

Definition counting_hashtable_new : counting_hashtable := ∅.
Definition counting_hashmap_new : counting_hashmap := ∅.

(** Number of registrations recorded for [k]; 0 when [k] is absent. *)
Definition count (t : gmap Z positive) (k : Z) : Z :=
  match t !! k with Some c => Z.pos c | None => 0 end.

(** Modelled from the spec: [add] increments, creating the key with
    count 1, and answers the new count (the callers test [== 1]). *)
Definition table_add (t : gmap Z positive) (k : Z) : Z * gmap Z positive :=
  match t !! k with
  | Some c => (Z.pos (Pos.succ c), <[k := Pos.succ c]> t)
  | None => (1, <[k := 1%positive]> t)
  end.

(** Modelled from the spec: [remove] decrements, drops the key at zero
    and answers the new count (the callers test [== 0]); a decrement of
    an absent key is clamped to zero. *)
Definition table_remove (t : gmap Z positive) (k : Z) : Z * gmap Z positive :=
  match t !! k with
  | Some 1%positive => (0, delete k t)
  | Some c => (Z.pos (Pos.pred c), <[k := Pos.pred c]> t)
  | None => (0, t)
  end.

(** The wrappers take a pointer, which is NULL ([None]) before
    [decaf_callback_init].  Modelled from the spec: a missing table holds
    no key and an update of it fails with [NULL_POINTER_ERROR], the code
    the callers themselves report for a missing table. *)
Definition counting_hashtable_exist (p : option counting_hashtable) (k : Z) : bool :=
  match p with
  | Some t => bool_decide (is_Some (t !! k))
  | None => false
  end.

Definition counting_hashtable_add `{Target} (p : option counting_hashtable) (k : Z)
  : Z * option counting_hashtable :=
  match p with
  | Some t => let '(r, t') := table_add t k in (r, Some t')
  | None => (NULL_POINTER_ERROR, None)
  end.

Definition counting_hashtable_remove `{Target} (p : option counting_hashtable) (k : Z)
  : Z * option counting_hashtable :=
  match p with
  | Some t => let '(r, t') := table_remove t k in (r, Some t')
  | None => (NULL_POINTER_ERROR, None)
  end.

Definition inner (m : counting_hashmap) (k : Z) : gmap Z positive :=
  default ∅ (m !! k).

Definition counting_hashmap_exist (p : option counting_hashmap) (from to : Z) : bool :=
  match p with
  | Some m => bool_decide (is_Some (inner m from !! to))
  | None => false
  end.

(** Modelled from the spec: [add] and [remove] work on the nested set and
    answer its count for the pair; the outer key goes with its last pair. *)
Definition counting_hashmap_add `{Target} (p : option counting_hashmap) (from to : Z)
  : Z * option counting_hashmap :=
  match p with
  | Some m =>
      let '(r, t') := table_add (inner m from) to in
      (r, Some (<[from := t']> m))
  | None => (NULL_POINTER_ERROR, None)
  end.

Definition counting_hashmap_remove `{Target} (p : option counting_hashmap) (from to : Z)
  : Z * option counting_hashmap :=
  match p with
  | Some m =>
      let '(r, t') := table_remove (inner m from) to in
      (r, Some (if bool_decide (t' = ∅) then delete from m else <[from := t']> m))
  | None => (NULL_POINTER_ERROR, None)
  end.

(** Count seen through the pointer. *)
Definition count_at (p : option counting_hashtable) (k : Z) : Z :=
  match p with Some t => count t k | None => 0 end.

Definition pair_count_at (p : option counting_hashmap) (from to : Z) : Z :=
  match p with Some m => count (inner m from) to | None => 0 end.

End Counting.
Export Counting.

(** ** The registry *)

(** [struct callback_struct].  [cb_addr] is the address of the struct,
    which is also the handle the plugin receives.  [enabled] is a pointer
    into plugin memory, [None] being NULL. *)
Record callback_struct := mk_cb {
  cb_addr : DECAF_handle;
  enabled : option Z;
  from : gva_t;
  to : gva_t;
  ocb_type : OCB_t;
  callback : Z
}.

Definition with_fields (c : callback_struct)
    (e : option Z) (f t : gva_t) (o : OCB_t) (fn : Z) : callback_struct :=
  {| cb_addr := cb_addr c; enabled := e; from := f; to := t;
     ocb_type := o; callback := fn |}.

(** The file-scope statics.  The two [bEnable...] ints only ever hold 0 or
    1 and are read as truth values, hence [bool]; the counts are C [int]s
    (far from overflow: one unit per registration). *)
Record State := mkState {
  bEnableAllBlockBeginCallbacks : bool;
  enableAllBlockBeginCallbacksCount : Z;
  bEnableAllBlockEndCallbacks : bool;
  enableAllBlockEndCallbacksCount : Z;
  pOBBTable : option counting_hashtable;
  pOBBPageTable : option counting_hashtable;
  pOBEFromPageTable : option counting_hashtable;
  pOBEToPageTable : option counting_hashtable;
  pOBEPageMap : option counting_hashmap;
  callback_list_heads : DECAF_callback_type_t -> list callback_struct;
  (** [callback_struct* instructionCallbacks[0x200]] *)
  instructionCallbacks : list (option DECAF_handle);
  (** calls of [register_decaf_flush_translation_cache], oldest first *)
  flush_log : list flush_call
}.

Definition set_bb_all (b : bool) (n : Z) (s : State) : State :=
  mkState b n (bEnableAllBlockEndCallbacks s) (enableAllBlockEndCallbacksCount s)
    (pOBBTable s) (pOBBPageTable s) (pOBEFromPageTable s) (pOBEToPageTable s)
    (pOBEPageMap s) (callback_list_heads s) (instructionCallbacks s) (flush_log s).

Definition set_be_all (b : bool) (n : Z) (s : State) : State :=
  mkState (bEnableAllBlockBeginCallbacks s) (enableAllBlockBeginCallbacksCount s) b n
    (pOBBTable s) (pOBBPageTable s) (pOBEFromPageTable s) (pOBEToPageTable s)
    (pOBEPageMap s) (callback_list_heads s) (instructionCallbacks s) (flush_log s).

Definition set_pOBBPageTable (p : option counting_hashtable) (s : State) : State :=
  mkState (bEnableAllBlockBeginCallbacks s) (enableAllBlockBeginCallbacksCount s)
    (bEnableAllBlockEndCallbacks s) (enableAllBlockEndCallbacksCount s)
    (pOBBTable s) p (pOBEFromPageTable s) (pOBEToPageTable s)
    (pOBEPageMap s) (callback_list_heads s) (instructionCallbacks s) (flush_log s).

Definition set_pOBEFromPageTable (p : option counting_hashtable) (s : State) : State :=
  mkState (bEnableAllBlockBeginCallbacks s) (enableAllBlockBeginCallbacksCount s)
    (bEnableAllBlockEndCallbacks s) (enableAllBlockEndCallbacksCount s)
    (pOBBTable s) (pOBBPageTable s) p (pOBEToPageTable s)
    (pOBEPageMap s) (callback_list_heads s) (instructionCallbacks s) (flush_log s).

Definition set_pOBEToPageTable (p : option counting_hashtable) (s : State) : State :=
  mkState (bEnableAllBlockBeginCallbacks s) (enableAllBlockBeginCallbacksCount s)
    (bEnableAllBlockEndCallbacks s) (enableAllBlockEndCallbacksCount s)
    (pOBBTable s) (pOBBPageTable s) (pOBEFromPageTable s) p
    (pOBEPageMap s) (callback_list_heads s) (instructionCallbacks s) (flush_log s).

Definition set_pOBEPageMap (p : option counting_hashmap) (s : State) : State :=
  mkState (bEnableAllBlockBeginCallbacks s) (enableAllBlockBeginCallbacksCount s)
    (bEnableAllBlockEndCallbacks s) (enableAllBlockEndCallbacksCount s)
    (pOBBTable s) (pOBBPageTable s) (pOBEFromPageTable s) (pOBEToPageTable s)
    p (callback_list_heads s) (instructionCallbacks s) (flush_log s).

Definition set_list (k : DECAF_callback_type_t) (l : list callback_struct)
    (s : State) : State :=
  mkState (bEnableAllBlockBeginCallbacks s) (enableAllBlockBeginCallbacksCount s)
    (bEnableAllBlockEndCallbacks s) (enableAllBlockEndCallbacksCount s)
    (pOBBTable s) (pOBBPageTable s) (pOBEFromPageTable s) (pOBEToPageTable s)
    (pOBEPageMap s)
    (fun k' => if decide (k' = k) then l else callback_list_heads s k')
    (instructionCallbacks s) (flush_log s).

Definition set_instructionCallbacks (t : list (option DECAF_handle))
    (s : State) : State :=
  mkState (bEnableAllBlockBeginCallbacks s) (enableAllBlockBeginCallbacksCount s)
    (bEnableAllBlockEndCallbacks s) (enableAllBlockEndCallbacksCount s)
    (pOBBTable s) (pOBBPageTable s) (pOBEFromPageTable s) (pOBEToPageTable s)
    (pOBEPageMap s) (callback_list_heads s) t (flush_log s).

(** [register_decaf_flush_translation_cache (scope, addr)] *)
Definition register_decaf_flush_translation_cache (scope : flush_scope) (addr : Z)
    (s : State) : State :=
  mkState (bEnableAllBlockBeginCallbacks s) (enableAllBlockBeginCallbacksCount s)
    (bEnableAllBlockEndCallbacks s) (enableAllBlockEndCallbacksCount s)
    (pOBBTable s) (pOBBPageTable s) (pOBEFromPageTable s) (pOBEToPageTable s)
    (pOBEPageMap s) (callback_list_heads s) (instructionCallbacks s)
    (flush_log s ++ [(scope, addr)]).

(** [if (c) flush(scope, addr);] *)
Definition flush_if (c : bool) (scope : flush_scope) (addr : Z) (s : State) : State :=
  if c then register_decaf_flush_translation_cache scope addr s else s.

(** [QLIST_INSERT_HEAD] *)
Definition QLIST_INSERT_HEAD (k : DECAF_callback_type_t) (c : callback_struct)
    (s : State) : State :=
  set_list k (c :: callback_list_heads s k) s.

(** The [QLIST_FOREACH_SAFE] scans of the unregister functions stop at the
    first element whose address is the handle. *)
Fixpoint qlist_find (h : DECAF_handle) (l : list callback_struct)
    : option callback_struct :=
  match l with
  | [] => None
  | c :: l' => if cb_addr c =? h then Some c else qlist_find h l'
  end.

(** [QLIST_REMOVE] of the element [qlist_find] returned. *)
Fixpoint qlist_remove (h : DECAF_handle) (l : list callback_struct)
    : list callback_struct :=
  match l with
  | [] => []
  | c :: l' => if cb_addr c =? h then l' else c :: qlist_remove h l'
  end.

Definition QLIST_REMOVE (k : DECAF_callback_type_t) (h : DECAF_handle)
    (s : State) : State :=
  set_list k (qlist_remove h (callback_list_heads s k)) s.

(** The parts of [CPUState] and [TranslationBlock] the helpers read.
    [cpu_next_pc] is the next instruction address the target-specific code
    computes from the CPU state (eip plus the CS base, r15, or the PC). *)
Record CPUState := { cpu_next_pc : gva_t }.
Record TranslationBlock := { tb_pc : gva_t }.

(** One call [cb_struct->callback(&params)]: the function called and the
    record it was called for. *)
Record cb_call := { called_fn : Z; called_via : DECAF_handle }.

(** The statics as the loader sets them: zeroes and NULLs. *)
Definition static_state : State :=
  mkState false 0 false 0 None None None None None (fun _ => [])
    (replicate 0x200%nat None) [].

(** [decaf_callback_init] *)
Definition decaf_callback_init (s : State) : State :=
  mkState false 0 false 0
    (Some counting_hashtable_new) (Some counting_hashtable_new)
    (Some counting_hashtable_new) (Some counting_hashtable_new)
    (Some counting_hashmap_new)
    (fun _ => []) (instructionCallbacks s) (flush_log s).

(** A block as [g_malloc] may hand it out: address [a], stale contents. *)
Definition sample_block (a : DECAF_handle) : callback_struct :=
  mk_cb a None 0 0 OCB_PAGE_NOT 0.

Section Engine.
Context `{T : Target}.

Definition page (a : gva_t) : gva_t := Z.land a TARGET_PAGE_MASK.

(** *** Opcode ranges *)

(** [for (i = lo; i <= hi; i++) instructionCallbacks[i] = v;].  A write
    at an index of 0x200 or more would leave the array, which C leaves
    undefined; the model drops such a write. *)
Definition fill_range (lo hi : Z) (v : option DECAF_handle)
    (t : list (option DECAF_handle)) : list (option DECAF_handle) :=
  foldl (fun t i => <[Z.to_nat i := v]> t) t (seqZ lo (hi - lo + 1)).

(** [0x0fxx] is stored as [0x1xx]. *)
Definition normalize_opcode (op : Z) : Z :=
  if 0x0f00 <=? op then Z.lor 0x100 (Z.land op 0xff) else op.

(** [decaf_register_opcode_range_callback]; [start_opcode] and
    [end_opcode] are [uint16_t]. *)
Definition decaf_register_opcode_range_callback
    (handler : Z) (condition : option Z) (start_opcode end_opcode : Z)
    (fresh : callback_struct) (s : State) : DECAF_handle * State :=
  if end_opcode <? start_opcode then (DECAF_NULL_HANDLE, s)
  else
    let start_opcode := normalize_opcode start_opcode in
    let end_opcode := normalize_opcode end_opcode in
    let cb_struct :=
      with_fields fresh condition start_opcode end_opcode (ocb_type fresh) handler in
    let s := set_instructionCallbacks
               (fill_range start_opcode end_opcode (Some (cb_addr cb_struct))
                  (instructionCallbacks s)) s in
    let s := QLIST_INSERT_HEAD DECAF_OPCODE_RANGE_CB cb_struct s in
    let s := register_decaf_flush_translation_cache ALL_CACHE 0 s in
    (cb_addr cb_struct, s).

(** [decaf_unregister_opcode_range_callback] *)
Definition decaf_unregister_opcode_range_callback
    (handle : DECAF_handle) (s : State) : Z * State :=
  match qlist_find handle (callback_list_heads s DECAF_OPCODE_RANGE_CB) with
  | None => (-1, s)
  | Some cb_struct =>
      if (0x1ff <? from cb_struct) || (0x1ff <? to cb_struct)
         || (to cb_struct <? from cb_struct)
      then (-1, s)
      else
        let s := set_instructionCallbacks
                   (fill_range (from cb_struct) (to cb_struct) None
                      (instructionCallbacks s)) s in
        let s := QLIST_REMOVE DECAF_OPCODE_RANGE_CB handle s in
        (0, s)
  end.

(** *** Block begin *)

(** [decaf_register_optimized_block_begin_callback] *)
Definition decaf_register_optimized_block_begin_callback
    (cb_func : Z) (cb_cond : option Z) (addr : gva_t) (type : OCB_t)
    (fresh : callback_struct) (s : State) : DECAF_handle * State :=
  let type := if decide (type = OCB_CONST) then OCB_ALL else type in
  let cb_struct := with_fields fresh cb_cond addr INV_ADDR type cb_func in
  let insert s :=
    (cb_addr cb_struct, QLIST_INSERT_HEAD DECAF_BLOCK_BEGIN_CB cb_struct s) in
  match type with
  | OCB_CONST_NOT => insert s
  | OCB_PAGE_NOT => insert s
  | OCB_PAGE =>
      let addr := page addr in
      match pOBBPageTable s with
      | None => (DECAF_NULL_HANDLE, s)
      | Some _ =>
          let '(r, p) := counting_hashtable_add (pOBBPageTable s) addr in
          let s := set_pOBBPageTable p s in
          let s := flush_if (r =? 1) PAGE_LEVEL addr s in
          insert s
      end
  | _ (* default, OCB_ALL *) =>
      let s := set_bb_all true (enableAllBlockBeginCallbacksCount s + 1) s in
      let s := flush_if (enableAllBlockBeginCallbacksCount s =? 1) ALL_CACHE 0 s in
      insert s
  end.

(** [decaf_unregister_optimized_block_begin_callback] *)
Definition decaf_unregister_optimized_block_begin_callback
    (handle : DECAF_handle) (s : State) : Z * State :=
  match qlist_find handle (callback_list_heads s DECAF_BLOCK_BEGIN_CB) with
  | None => (-1, s)
  | Some cb_struct =>
      let finish s := (0, QLIST_REMOVE DECAF_BLOCK_BEGIN_CB handle s) in
      match ocb_type cb_struct with
      | OCB_PAGE =>
          match pOBBPageTable s with
          | None => (NULL_POINTER_ERROR, s)
          | Some _ =>
              let '(r, p) :=
                counting_hashtable_remove (pOBBPageTable s) (from cb_struct) in
              let s := set_pOBBPageTable p s in
              let s := flush_if (r =? 0) PAGE_LEVEL (from cb_struct) s in
              finish s
          end
      | _ (* default: same as ALL *) =>
          let n := enableAllBlockBeginCallbacksCount s - 1 in
          if n =? 0 then
            let s := set_bb_all false n s in
            finish (register_decaf_flush_translation_cache ALL_CACHE 0 s)
          else if n <? 0 then
            finish (set_bb_all (bEnableAllBlockBeginCallbacks s) 0 s)
          else
            finish (set_bb_all (bEnableAllBlockBeginCallbacks s) n s)
      end
  end.

(** *** Block end *)

(** [decaf_register_optimized_block_end_callback] *)
Definition decaf_register_optimized_block_end_callback
    (cb_func : Z) (cb_cond : option Z) (from to : gva_t)
    (fresh : callback_struct) (s : State) : DECAF_handle * State :=
  let cb_struct := with_fields fresh cb_cond from to OCB_ALL cb_func in
  let insert s :=
    (cb_addr cb_struct, QLIST_INSERT_HEAD DECAF_BLOCK_END_CB cb_struct s) in
  if (from =? INV_ADDR) && (to =? INV_ADDR) then
    let s := set_be_all true (enableAllBlockEndCallbacksCount s + 1) s in
    let s := flush_if (enableAllBlockEndCallbacksCount s =? 1) ALL_CACHE 0 s in
    insert s
  else if to =? INV_ADDR then
    match pOBEFromPageTable s with
    | None => (DECAF_NULL_HANDLE, s)
    | Some _ =>
        let '(r, p) := counting_hashtable_add (pOBEFromPageTable s) (page from) in
        let s := set_pOBEFromPageTable p s in
        let s := flush_if (r =? 1) PAGE_LEVEL from s in
        insert s
    end
  else if from =? INV_ADDR then
    match pOBEToPageTable s with
    | None => (DECAF_NULL_HANDLE, s)
    | Some _ =>
        let '(r, p) := counting_hashtable_add (pOBEToPageTable s) (page to) in
        let s := set_pOBEToPageTable p s in
        let s := flush_if (r =? 1) ALL_CACHE 0 s in
        insert s
    end
  else
    match pOBEPageMap s with
    | None => (DECAF_NULL_HANDLE, s)
    | Some _ =>
        let '(r, p) := counting_hashmap_add (pOBEPageMap s) (page from) (page to) in
        let s := set_pOBEPageMap p s in
        let s := flush_if (r =? 1) PAGE_LEVEL from s in
        insert s
    end.

(** [decaf_unregister_optimized_block_end_callback] *)
Definition decaf_unregister_optimized_block_end_callback
    (handle : DECAF_handle) (s : State) : Z * State :=
  match qlist_find handle (callback_list_heads s DECAF_BLOCK_END_CB) with
  | None => (-1, s)
  | Some cb_struct =>
      let finish s := (0, QLIST_REMOVE DECAF_BLOCK_END_CB handle s) in
      if (from cb_struct =? INV_ADDR) && (to cb_struct =? INV_ADDR) then
        let n := enableAllBlockEndCallbacksCount s - 1 in
        if n =? 0 then
          let s := set_be_all (bEnableAllBlockEndCallbacks s) n s in
          let s := register_decaf_flush_translation_cache ALL_CACHE 0 s in
          finish (set_be_all false n s)
        else if n <? 0 then
          finish (set_be_all (bEnableAllBlockEndCallbacks s) 0 s)
        else
          finish (set_be_all (bEnableAllBlockEndCallbacks s) n s)
      else if to cb_struct =? INV_ADDR then
        let from := page (from cb_struct) in
        let '(r, p) := counting_hashtable_remove (pOBEFromPageTable s) from in
        let s := set_pOBEFromPageTable p s in
        finish (flush_if (r =? 0) PAGE_LEVEL from s)
      else if from cb_struct =? INV_ADDR then
        let to := page (to cb_struct) in
        let '(r, p) := counting_hashtable_remove (pOBEToPageTable s) to in
        let s := set_pOBEToPageTable p s in
        finish (flush_if (r =? 0) ALL_CACHE 0 s)
      else
        let '(r, p) :=
          counting_hashmap_remove (pOBEPageMap s)
            (page (from cb_struct)) (page (to cb_struct)) in
        let s := set_pOBEPageMap p s in
        finish (flush_if (r =? 0) PAGE_LEVEL (page (from cb_struct)) s)
  end.

(** *** The generic interface *)

(** [decaf_register_callback] *)
Definition decaf_register_callback
    (cb_type : DECAF_callback_type_t) (cb_func : Z) (cb_cond : option Z)
    (fresh : callback_struct) (s : State) : DECAF_handle * State :=
  if decide (cb_type = DECAF_BLOCK_BEGIN_CB) then
    decaf_register_optimized_block_begin_callback cb_func cb_cond INV_ADDR OCB_ALL fresh s
  else if decide (cb_type = DECAF_BLOCK_END_CB) then
    decaf_register_optimized_block_end_callback cb_func cb_cond INV_ADDR INV_ADDR fresh s
  else
    let cb_struct :=
      with_fields fresh cb_cond (from fresh) (to fresh) (ocb_type fresh) cb_func in
    let s :=
      if decide (cb_type = DECAF_TLB_EXEC_CB) then s
      else flush_if (bool_decide (callback_list_heads s cb_type = [])) ALL_CACHE 0 s in
    (cb_addr cb_struct, QLIST_INSERT_HEAD cb_type cb_struct s).

(** [decaf_unregister_callback] *)
Definition decaf_unregister_callback
    (cb_type : DECAF_callback_type_t) (handle : DECAF_handle) (s : State)
    : Z * State :=
  if decide (cb_type = DECAF_BLOCK_BEGIN_CB) then
    decaf_unregister_optimized_block_begin_callback handle s
  else if decide (cb_type = DECAF_BLOCK_END_CB) then
    decaf_unregister_optimized_block_end_callback handle s
  else
    match qlist_find handle (callback_list_heads s cb_type) with
    | None => (-1, s)
    | Some _ =>
        let s := QLIST_REMOVE cb_type handle s in
        if decide (cb_type = DECAF_TLB_EXEC_CB) then (0, s)
        else
          (0, flush_if (bool_decide (callback_list_heads s cb_type = [])) ALL_CACHE 0 s)
    end.

(** *** Translation-time queries *)

(** [decaf_is_callback_needed] *)
Definition decaf_is_callback_needed (cb_type : DECAF_callback_type_t) (s : State)
    : bool :=
  negb (bool_decide (callback_list_heads s cb_type = [])).

(** [decaf_is_block_begin_callback_needed] *)
Definition decaf_is_block_begin_callback_needed (pc : gva_t) (s : State) : bool :=
  if bEnableAllBlockBeginCallbacks s then true
  else if counting_hashtable_exist (pOBBPageTable s) (page pc) then true
  else if counting_hashtable_exist (pOBBTable s) pc then true
  else false.

(** [decaf_is_block_end_callback_needed] *)
Definition decaf_is_block_end_callback_needed (from to : gva_t) (s : State) : bool :=
  if bEnableAllBlockEndCallbacks s then true
  else
    let from := page from in
    if counting_hashtable_exist (pOBEFromPageTable s) from then true
    else if to =? INV_ADDR then false
    else
      let to := page to in
      if counting_hashtable_exist (pOBEToPageTable s) to then true
      else counting_hashmap_exist (pOBEPageMap s) from to.

(** *** Dispatch *)

(** [!cb_struct->enabled || *cb_struct->enabled], with [mem] the plugin
    memory the flags live in. *)
Definition is_enabled (mem : Z -> Z) (cb_struct : callback_struct) : bool :=
  match enabled cb_struct with
  | None => true
  | Some p => negb (mem p =? 0)
  end.

(** [cb_struct->callback(&params)] *)
Definition invoke (cb_struct : callback_struct) : list cb_call :=
  [ {| called_fn := callback cb_struct; called_via := cb_addr cb_struct |} ].

(** Body of the walk of [helper_decaf_invoke_block_begin_callback]. *)
Definition block_begin_body (mem : Z -> Z) (tb : TranslationBlock)
    (cb_struct : callback_struct) : list cb_call :=
  if is_enabled mem cb_struct then
    match ocb_type cb_struct with
    | OCB_PAGE =>
        if page (from cb_struct) =? page (tb_pc tb) then invoke cb_struct else []
    | _ (* default, OCB_ALL *) => invoke cb_struct
    end
  else [].

(** [helper_decaf_invoke_block_begin_callback] *)
Definition helper_decaf_invoke_block_begin_callback (mem : Z -> Z)
    (cs : option CPUState) (tb : option TranslationBlock) (s : State)
    : list cb_call :=
  match cs, tb with
  | Some _, Some tb =>
      flat_map (block_begin_body mem tb) (callback_list_heads s DECAF_BLOCK_BEGIN_CB)
  | _, _ => []
  end.

(** Body of the walk of [helper_decaf_invoke_block_end_callback];
    [cur_pc] and [next_pc] are [params.be.cur_pc] and [params.be.next_pc]. *)
Definition block_end_body (mem : Z -> Z) (cur_pc next_pc : gva_t)
    (cb_struct : callback_struct) : list cb_call :=
  if is_enabled mem cb_struct then
    if to cb_struct =? INV_ADDR then invoke cb_struct
    else if page (to cb_struct) =? page next_pc then
      if from cb_struct =? INV_ADDR then invoke cb_struct
      else if page (from cb_struct) =? page cur_pc then invoke cb_struct
      else []
    else []
  else [].

(** [helper_decaf_invoke_block_end_callback] *)
Definition helper_decaf_invoke_block_end_callback (mem : Z -> Z)
    (cs : option CPUState) (tb : option TranslationBlock) (from : gva_t)
    (s : State) : list cb_call :=
  match cs with
  | None => []
  | Some cpu =>
      flat_map (block_end_body mem from (cpu_next_pc cpu))
        (callback_list_heads s DECAF_BLOCK_END_CB)
  end.

(** The class the helper computes into [temp]. *)
Definition transition_class (eip next_eip : Z) : Z :=
  let kernel_base := 0x80000000 in
  let from_kernel := if kernel_base <? eip then 1 else 0 in
  let from_user := if kernel_base <? eip then 0 else 1 in
  let to_kernel := if kernel_base <? next_eip then 1 else 0 in
  let to_user := if kernel_base <? next_eip then 0 else 1 in
  if negb (Z.land from_user to_user =? 0) then DECAF_USER_TO_USER_ONLY
  else if negb (Z.land from_user to_kernel =? 0) then DECAF_USER_TO_KERNEL_ONLY
  else if negb (Z.land from_kernel to_user =? 0) then DECAF_KERNEL_TO_USER_ONLY
  else DECAF_KERNEL_TO_KERNEL_ONLY.

(** The part of [helper_decaf_invoke_opcode_range_callback] that runs once
    [cb_struct] and the value [cond] its [enabled] pointer refers to are read. *)
Definition opcode_range_body (cond : Z) (eip next_eip : Z)
    (cb_struct : callback_struct) : list cb_call :=
  if negb (cond =? DECAF_ALL) then
    let temp := transition_class eip next_eip in
    (* if (temp & (cond == 0)) return;   [==] binds tighter than [&] *)
    if negb (Z.land temp (if cond =? 0 then 1 else 0) =? 0) then []
    else invoke cb_struct
  else invoke cb_struct.

(** [helper_decaf_invoke_opcode_range_callback]; [op] is a [uint32_t].
    [None] stands for what C leaves undefined: an index outside the
    table, a slot whose struct was freed, a NULL condition pointer. *)
Definition helper_decaf_invoke_opcode_range_callback (mem : Z -> Z)
    (cs : option CPUState) (eip next_eip op : Z) (s : State)
    : option (list cb_call) :=
  match instructionCallbacks s !! Z.to_nat op with
  | None => None
  | Some None => Some []
  | Some (Some p) =>
      match cs with
      | None => Some []
      | Some _ =>
          match qlist_find p (callback_list_heads s DECAF_OPCODE_RANGE_CB) with
          | None => None
          | Some cb_struct =>
              match enabled cb_struct with
              | None => None
              | Some q => Some (opcode_range_body (mem q) eip next_eip cb_struct)
              end
          end
      end
  end.

(** *** The rest of the interface *)

(** [decaf_register_match_block_end_callback].  The exit for two wildcards
    comes after the allocation and does not free the block; the leak has
    no effect on the statics. *)
Definition decaf_register_match_block_end_callback
    (cb_func : Z) (cb_cond : option Z) (from to : gva_t)
    (fresh : callback_struct) (s : State) : DECAF_handle * State :=
  let cb_struct := with_fields fresh cb_cond from to OCB_ALL cb_func in
  let insert s :=
    (cb_addr cb_struct, QLIST_INSERT_HEAD DECAF_BLOCK_END_CB cb_struct s) in
  if (from =? INV_ADDR) && (to =? INV_ADDR) then (DECAF_NULL_HANDLE, s)
  else if to =? INV_ADDR then
    match pOBEFromPageTable s with
    | None => (DECAF_NULL_HANDLE, s)
    | Some _ =>
        let '(r, p) := counting_hashtable_add (pOBEFromPageTable s) (page from) in
        let s := set_pOBEFromPageTable p s in
        let s := flush_if (r =? 1) PAGE_LEVEL from s in
        insert s
    end
  else if from =? INV_ADDR then
    match pOBEToPageTable s with
    | None => (DECAF_NULL_HANDLE, s)
    | Some _ =>
        let '(r, p) := counting_hashtable_add (pOBEToPageTable s) (page to) in
        let s := set_pOBEToPageTable p s in
        let s := flush_if (r =? 1) ALL_CACHE 0 s in
        insert s
    end
  else
    match pOBEPageMap s with
    | None => (DECAF_NULL_HANDLE, s)
    | Some _ =>
        let '(r, p) := counting_hashmap_add (pOBEPageMap s) (page from) (page to) in
        let s := set_pOBEPageMap p s in
        let s := flush_if (r =? 1) PAGE_LEVEL from s in
        insert s
    end.

(** [decaf_is_callback_needed_for_opcode]; [op] is an [int].  A negative
    [op] passes the bound test and reads before the array, which C leaves
    undefined ([None]). *)
Definition decaf_is_callback_needed_for_opcode (op : Z) (s : State) : option bool :=
  if op <? 0x200 then
    if op <? 0 then None
    else
      match instructionCallbacks s !! Z.to_nat op with
      | Some (Some _) => Some true
      | Some None => Some false
      | None => None
      end
  else Some false.

(** The walk shared by the helpers that have no filter of their own: every
    record of the registry of [kind] whose condition allows it is called,
    from the head of the list on. *)
Definition walk_registry (mem : Z -> Z) (kind : DECAF_callback_type_t) (s : State)
    : list cb_call :=
  flat_map (fun cb_struct => if is_enabled mem cb_struct then invoke cb_struct else [])
    (callback_list_heads s kind).

(** [helper_decaf_invoke_insn_begin_callback] *)
Definition helper_decaf_invoke_insn_begin_callback (mem : Z -> Z)
    (cs : option CPUState) (s : State) : list cb_call :=
  match cs with
  | None => []
  | Some _ => walk_registry mem DECAF_INSN_BEGIN_CB s
  end.

(** [helper_decaf_invoke_insn_end_callback] *)
Definition helper_decaf_invoke_insn_end_callback (mem : Z -> Z)
    (cs : option CPUState) (s : State) : list cb_call :=
  match cs with
  | None => []
  | Some _ => walk_registry mem DECAF_INSN_END_CB s
  end.

(** [helper_decaf_invoke_eip_check_callback] *)
Definition helper_decaf_invoke_eip_check_callback (mem : Z -> Z)
    (source_eip target_eip target_eip_taint : gva_t) (s : State) : list cb_call :=
  walk_registry mem DECAF_EIP_CHECK_CB s.

(** [decaf_invoke_tlb_exec_callback] *)
Definition decaf_invoke_tlb_exec_callback (mem : Z -> Z)
    (cs : option CPUState) (vaddr : gva_t) (s : State) : list cb_call :=
  match cs with
  | None => []
  | Some _ => if vaddr =? 0 then [] else walk_registry mem DECAF_TLB_EXEC_CB s
  end.

(** [helper_decaf_invoke_nic_rec_callback] *)
Definition helper_decaf_invoke_nic_rec_callback (mem : Z -> Z)
    (buf size cur_pos start stop : Z) (s : State) : list cb_call :=
  walk_registry mem DECAF_NIC_REC_CB s.

(** [helper_decaf_invoke_nic_send_callback] *)
Definition helper_decaf_invoke_nic_send_callback (mem : Z -> Z)
    (addr size buf : Z) (s : State) : list cb_call :=
  walk_registry mem DECAF_NIC_SEND_CB s.

(** [helper_decaf_invoke_mem_read_callback] *)
Definition helper_decaf_invoke_mem_read_callback (mem : Z -> Z)
    (vaddr paddr value data_type : Z) (s : State) : list cb_call :=
  walk_registry mem DECAF_MEM_READ_CB s.

(** [helper_decaf_invoke_mem_write_callback] *)
Definition helper_decaf_invoke_mem_write_callback (mem : Z -> Z)
    (vaddr paddr value data_type : Z) (s : State) : list cb_call :=
  walk_registry mem DECAF_MEM_WRITE_CB s.

(** [helper_decaf_invoke_keystroke_callback] *)
Definition helper_decaf_invoke_keystroke_callback (mem : Z -> Z)
    (keycode taint_mark : Z) (s : State) : list cb_call :=
  walk_registry mem DECAF_KEYSTROKE_CB s.

(** [helper_decaf_invoke_read_taint_mem] *)
Definition helper_decaf_invoke_read_taint_mem (mem : Z -> Z)
    (vaddr paddr size taint_info : Z) (s : State) : list cb_call :=
  walk_registry mem DECAF_READ_TAINTMEM_CB s.

(** [helper_decaf_invoke_write_taint_mem] *)
Definition helper_decaf_invoke_write_taint_mem (mem : Z -> Z)
    (vaddr paddr size taint_info : Z) (s : State) : list cb_call :=
  walk_registry mem DECAF_WRITE_TAINTMEM_CB s.

(** One call the emulator makes to one of these helpers, with its
    arguments. *)
Inductive helper_call :=
| Insn_begin (cs : option CPUState)
| Insn_end (cs : option CPUState)
| Eip_check (source_eip target_eip target_eip_taint : gva_t)
| Tlb_exec (cs : option CPUState) (vaddr : gva_t)
| Nic_rec (buf size cur_pos start stop : Z)
| Nic_send (addr size buf : Z)
| Mem_read (vaddr paddr value data_type : Z)
| Mem_write (vaddr paddr value data_type : Z)
| Keystroke (keycode taint_mark : Z)
| Read_taint_mem (vaddr paddr size taint_info : Z)
| Write_taint_mem (vaddr paddr size taint_info : Z).

Definition run_helper (mem : Z -> Z) (c : helper_call) (s : State) : list cb_call :=
  match c with
  | Insn_begin cs => helper_decaf_invoke_insn_begin_callback mem cs s
  | Insn_end cs => helper_decaf_invoke_insn_end_callback mem cs s
  | Eip_check source_eip target_eip target_eip_taint =>
      helper_decaf_invoke_eip_check_callback mem source_eip target_eip target_eip_taint s
  | Tlb_exec cs vaddr => decaf_invoke_tlb_exec_callback mem cs vaddr s
  | Nic_rec buf size cur_pos start stop =>
      helper_decaf_invoke_nic_rec_callback mem buf size cur_pos start stop s
  | Nic_send addr size buf => helper_decaf_invoke_nic_send_callback mem addr size buf s
  | Mem_read vaddr paddr value data_type =>
      helper_decaf_invoke_mem_read_callback mem vaddr paddr value data_type s
  | Mem_write vaddr paddr value data_type =>
      helper_decaf_invoke_mem_write_callback mem vaddr paddr value data_type s
  | Keystroke keycode taint_mark =>
      helper_decaf_invoke_keystroke_callback mem keycode taint_mark s
  | Read_taint_mem vaddr paddr size taint_info =>
      helper_decaf_invoke_read_taint_mem mem vaddr paddr size taint_info s
  | Write_taint_mem vaddr paddr size taint_info =>
      helper_decaf_invoke_write_taint_mem mem vaddr paddr size taint_info s
  end.

(** The event kind whose registry the helper goes through. *)
Definition helper_kind (c : helper_call) : DECAF_callback_type_t :=
  match c with
  | Insn_begin _ => DECAF_INSN_BEGIN_CB
  | Insn_end _ => DECAF_INSN_END_CB
  | Eip_check _ _ _ => DECAF_EIP_CHECK_CB
  | Tlb_exec _ _ => DECAF_TLB_EXEC_CB
  | Nic_rec _ _ _ _ _ => DECAF_NIC_REC_CB
  | Nic_send _ _ _ => DECAF_NIC_SEND_CB
  | Mem_read _ _ _ _ => DECAF_MEM_READ_CB
  | Mem_write _ _ _ _ => DECAF_MEM_WRITE_CB
  | Keystroke _ _ => DECAF_KEYSTROKE_CB
  | Read_taint_mem _ _ _ _ => DECAF_READ_TAINTMEM_CB
  | Write_taint_mem _ _ _ _ => DECAF_WRITE_TAINTMEM_CB
  end.

(** The arguments of the call are ones a plugin can be called with: the
    CPU state, where the helper takes one, is not NULL, and the address of
    a TLB event is not 0. *)
Definition has_event (c : helper_call) : bool :=
  match c with
  | Insn_begin cs | Insn_end cs => bool_decide (is_Some cs)
  | Tlb_exec cs vaddr => bool_decide (is_Some cs) && negb (vaddr =? 0)
  | _ => true
  end.

(** *** Sequences of calls of the interface *)




End Engine.

(** ** Vocabulary of the description *)

(** The log of [s'] is the log of [s] followed by the calls [l]: what an
    operation taking [s] to [s'] issued. *)
Definition issues (s s' : State) (l : list flush_call) : Prop :=
  flush_log s' = flush_log s ++ l.

(** A count went up from [c] to [c'] while the state went from [s] to
    [s']: it grew by one, and [call] was issued exactly when it left 0. *)
Definition up_step (c c' : Z) (s s' : State) (call : flush_call) : Prop :=
  c' = c + 1 /\ issues s s' (if c =? 0 then [call] else []).

(** A count went down from [c] to [c']: it shrank by one, and [call] was
    issued exactly when it reached 0. *)
Definition down_step (c c' : Z) (s s' : State) (call : flush_call) : Prop :=
  c' = c - 1 /\ issues s s' (if c =? 1 then [call] else []).

(** Key [k] is in the counting set behind [p]. *)
Definition in_table (p : option counting_hashtable) (k : Z) : Prop :=
  match p with
  | Some t => is_Some (t !! k)
  | None => False
  end.

(** The pair ([f], [t]) is in the counting map behind [p]. *)
Definition in_map (p : option counting_hashmap) (f t : Z) : Prop :=
  match p with
  | Some m => exists inner_set, m !! f = Some inner_set /\ is_Some (inner_set !! t)
  | None => False
  end.

#[global] Instance in_table_dec p k : Decision (in_table p k).
Proof. destruct p; simpl; apply _. Defined.

(** The record [r] was called during a dispatch that made the calls [tr]. *)
Definition invoked (r : callback_struct) (tr : list cb_call) : Prop :=
  {| called_fn := callback r; called_via := cb_addr r |} ∈ tr.

(** The slot of index [i], [None] being the NULL pointer. *)
Definition slot (s : State) (i : Z) : option (option DECAF_handle) :=
  instructionCallbacks s !! Z.to_nat i.

Section Vocabulary.
Context `{T : Target}.

(** The applicability rule for block ends, as the description words it:
    the global flag decides; else the from-only set; else an unknown
    target gives no; else the to-only set or the pair map. *)
Definition block_end_needed_rule (s : State) (from to : gva_t) : Prop :=
  if bEnableAllBlockEndCallbacks s then True
  else if decide (in_table (pOBEFromPageTable s) (page from)) then True
  else if decide (to = INV_ADDR) then False
  else in_table (pOBEToPageTable s) (page to)
       \/ in_map (pOBEPageMap s) (page from) (page to).

(** A condition value includes a transition class when they share a bit. *)
Definition condition_includes (cond class : Z) : bool :=
  negb (Z.land cond class =? 0).

(** Number of records of a list that satisfy [P]. *)
Fixpoint tally (P : callback_struct -> bool) (l : list callback_struct) : Z :=
  match l with
  | [] => 0
  | c :: l' => (if P c then 1 else 0) + tally P l'
  end.






(** The record [r] was registered for the transition from [cur] to [next],
    where [next] may be [INV_ADDR] for a target not known yet: its source
    is the wildcard or the page of [cur], and its target is the wildcard or
    the page of a known [next]. *)
Definition covers (r : callback_struct) (cur next : gva_t) : Prop :=
  (from r = INV_ADDR \/ page (from r) = page cur) /\
  (to r = INV_ADDR \/ (next <> INV_ADDR /\ page (to r) = page next)).





(** No two records of the list have the same address. *)
Definition distinct_records (l : list callback_struct) : Prop :=
  NoDup (cb_addr <$> l).



End Vocabulary.

(** ** Counting tables *)

Section CountingFacts.
Implicit Types (t : gmap Z positive) (m : gmap Z (gmap Z positive)) (k : Z).

Lemma count_nonneg t k : 0 <= count t k.
Proof. unfold count. destruct (t !! k); lia. Qed.

Lemma count_pos_iff t k : 0 < count t k <-> is_Some (t !! k).
Proof.
  unfold count. destruct (t !! k) as [c|] eqn:E.
  - split; [eauto | lia].
  - split; [lia | intros [c Hc]; discriminate].
Qed.

Lemma table_add_result t k : fst (table_add t k) = count t k + 1.
Proof. unfold table_add, count. destruct (t !! k); simpl; lia. Qed.

Lemma table_add_count_eq t k : count (snd (table_add t k)) k = count t k + 1.
Proof.
  unfold table_add, count. destruct (t !! k) as [c|] eqn:E; cbn [fst snd];
    rewrite lookup_insert_eq; lia.
Qed.

Lemma table_add_count_ne t k k' :
  k <> k' -> count (snd (table_add t k)) k' = count t k'.
Proof.
  intros Hne. unfold table_add, count. destruct (t !! k) as [c|] eqn:E; cbn [fst snd];
    rewrite lookup_insert_ne by done; reflexivity.
Qed.

Lemma table_remove_result t k :
  fst (table_remove t k) = Z.max 0 (count t k - 1).
Proof.
  unfold table_remove, count. destruct (t !! k) as [c|] eqn:E; simpl; [|lia].
  destruct c; simpl; lia.
Qed.

Lemma table_remove_count_eq t k :
  count (snd (table_remove t k)) k = Z.max 0 (count t k - 1).
Proof.
  unfold table_remove, count. destruct (t !! k) as [c|] eqn:E; cbn [fst snd].
  - destruct c; cbn [fst snd].
    + rewrite lookup_insert_eq. lia.
    + rewrite lookup_insert_eq. lia.
    + rewrite lookup_delete_eq. lia.
  - rewrite E. lia.
Qed.

Lemma table_remove_count_ne t k k' :
  k <> k' -> count (snd (table_remove t k)) k' = count t k'.
Proof.
  intros Hne. unfold table_remove, count. destruct (t !! k) as [c|] eqn:E; cbn [fst snd].
  - destruct c; cbn [fst snd].
    + rewrite lookup_insert_ne by done. reflexivity.
    + rewrite lookup_insert_ne by done. reflexivity.
    + rewrite lookup_delete_ne by done. reflexivity.
  - reflexivity.
Qed.

(** A removal of an absent key leaves the table as it is. *)
Lemma table_remove_absent t k : t !! k = None -> table_remove t k = (0, t).
Proof. intros E. unfold table_remove. rewrite E. reflexivity. Qed.

Lemma exist_iff_in_table p k :
  counting_hashtable_exist p k = true <-> in_table p k.
Proof.
  destruct p as [t|]; simpl; [apply bool_decide_eq_true | split; [discriminate | tauto]].
Qed.

Lemma exist_iff_count p k :
  counting_hashtable_exist p k = true <-> 0 < count_at p k.
Proof.
  rewrite exist_iff_in_table. destruct p as [t|]; simpl.
  - symmetry. apply count_pos_iff.
  - lia.
Qed.

Lemma map_exist_iff_in_map p f k :
  counting_hashmap_exist p f k = true <-> in_map p f k.
Proof.
  destruct p as [m|]; simpl; [| split; [discriminate | tauto]].
  rewrite bool_decide_eq_true. unfold inner.
  destruct (m !! f) as [i|] eqn:E; simpl.
  - split; [eauto | intros (i' & Hi & H); congruence].
  - split.
    + intros [c Hc]. rewrite lookup_empty in Hc. discriminate.
    + intros (i' & Hi & _). discriminate.
Qed.

Lemma inner_insert_eq m f t : inner (<[f := t]> m) f = t.
Proof. unfold inner. rewrite lookup_insert_eq. reflexivity. Qed.

Lemma inner_delete_eq m f : inner (delete f m) f = ∅.
Proof. unfold inner. rewrite lookup_delete_eq. reflexivity. Qed.

End CountingFacts.

Section WrapperFacts.
Context `{T : Target}.
Implicit Types (t : gmap Z positive) (m : gmap Z (gmap Z positive)) (k f : Z).

Lemma hashtable_add_Some t k :
  counting_hashtable_add (Some t) k = (count t k + 1, Some (snd (table_add t k))).
Proof.
  unfold counting_hashtable_add. rewrite <- table_add_result.
  destruct (table_add t k); reflexivity.
Qed.

Lemma hashtable_remove_Some t k :
  counting_hashtable_remove (Some t) k
  = (Z.max 0 (count t k - 1), Some (snd (table_remove t k))).
Proof.
  unfold counting_hashtable_remove. rewrite <- table_remove_result.
  destruct (table_remove t k); reflexivity.
Qed.

Lemma hashmap_add_Some m f k :
  counting_hashmap_add (Some m) f k
  = (count (inner m f) k + 1, Some (<[f := snd (table_add (inner m f) k)]> m)).
Proof.
  unfold counting_hashmap_add. rewrite <- table_add_result.
  destruct (table_add (inner m f) k); reflexivity.
Qed.

(** The map a removal of the pair ([f], [k]) leaves. *)
Lemma hashmap_remove_Some m f k :
  exists m',
    counting_hashmap_remove (Some m) f k
    = (Z.max 0 (count (inner m f) k - 1), Some m')
    /\ inner m' f = snd (table_remove (inner m f) k).
Proof.
  unfold counting_hashmap_remove. rewrite <- table_remove_result.
  destruct (table_remove (inner m f) k) as [r t'] eqn:E. cbn [fst snd].
  eexists. split; [reflexivity|].
  case_bool_decide as Hd.
  - rewrite inner_delete_eq. symmetry. exact Hd.
  - apply inner_insert_eq.
Qed.

End WrapperFacts.


(** ** Reading a field after an update *)

(** Unfolds the updates of the state under the field that is read. *)
Ltac state_simpl :=
  cbn [bEnableAllBlockBeginCallbacks enableAllBlockBeginCallbacksCount
       bEnableAllBlockEndCallbacks enableAllBlockEndCallbacksCount
       pOBBTable pOBBPageTable pOBEFromPageTable pOBEToPageTable pOBEPageMap
       callback_list_heads instructionCallbacks flush_log
       set_bb_all set_be_all set_pOBBPageTable set_pOBEFromPageTable
       set_pOBEToPageTable set_pOBEPageMap set_list set_instructionCallbacks
       register_decaf_flush_translation_cache flush_if QLIST_INSERT_HEAD QLIST_REMOVE
       decaf_callback_init with_fields cb_addr enabled from to ocb_type callback
       fst snd] in *.

(** Reads a field through [flush_if] as well. *)
Ltac state_read :=
  repeat (progress (state_simpl; autorewrite with state_proj in * )).

Lemma flush_if_bEnableAllBlockBeginCallbacks c sc a s :
  bEnableAllBlockBeginCallbacks (flush_if c sc a s) = bEnableAllBlockBeginCallbacks s.
Proof. destruct c; reflexivity. Qed.

Lemma flush_if_enableAllBlockBeginCallbacksCount c sc a s :
  enableAllBlockBeginCallbacksCount (flush_if c sc a s) = enableAllBlockBeginCallbacksCount s.
Proof. destruct c; reflexivity. Qed.

Lemma flush_if_bEnableAllBlockEndCallbacks c sc a s :
  bEnableAllBlockEndCallbacks (flush_if c sc a s) = bEnableAllBlockEndCallbacks s.
Proof. destruct c; reflexivity. Qed.

Lemma flush_if_enableAllBlockEndCallbacksCount c sc a s :
  enableAllBlockEndCallbacksCount (flush_if c sc a s) = enableAllBlockEndCallbacksCount s.
Proof. destruct c; reflexivity. Qed.

Lemma flush_if_pOBBTable c sc a s :
  pOBBTable (flush_if c sc a s) = pOBBTable s.
Proof. destruct c; reflexivity. Qed.

Lemma flush_if_pOBBPageTable c sc a s :
  pOBBPageTable (flush_if c sc a s) = pOBBPageTable s.
Proof. destruct c; reflexivity. Qed.

Lemma flush_if_pOBEFromPageTable c sc a s :
  pOBEFromPageTable (flush_if c sc a s) = pOBEFromPageTable s.
Proof. destruct c; reflexivity. Qed.

Lemma flush_if_pOBEToPageTable c sc a s :
  pOBEToPageTable (flush_if c sc a s) = pOBEToPageTable s.
Proof. destruct c; reflexivity. Qed.

Lemma flush_if_pOBEPageMap c sc a s :
  pOBEPageMap (flush_if c sc a s) = pOBEPageMap s.
Proof. destruct c; reflexivity. Qed.

Lemma flush_if_callback_list_heads c sc a s :
  callback_list_heads (flush_if c sc a s) = callback_list_heads s.
Proof. destruct c; reflexivity. Qed.

Lemma flush_if_instructionCallbacks c sc a s :
  instructionCallbacks (flush_if c sc a s) = instructionCallbacks s.
Proof. destruct c; reflexivity. Qed.

Lemma flush_if_log c sc a s :
  flush_log (flush_if c sc a s) = flush_log s ++ (if c then [(sc, a)] else []).
Proof. destruct c; simpl; [reflexivity | now rewrite app_nil_r]. Qed.

Create Rewrite HintDb state_proj.
#[global] Hint Rewrite flush_if_bEnableAllBlockBeginCallbacks flush_if_enableAllBlockBeginCallbacksCount flush_if_bEnableAllBlockEndCallbacks flush_if_enableAllBlockEndCallbacksCount flush_if_pOBBTable flush_if_pOBBPageTable flush_if_pOBEFromPageTable flush_if_pOBEToPageTable flush_if_pOBEPageMap flush_if_callback_list_heads flush_if_instructionCallbacks flush_if_log : state_proj.

(** ** Registry lists *)

Section ListFacts.
Implicit Types (l : list callback_struct) (c : callback_struct) (h : DECAF_handle).

Lemma qlist_find_head c l : qlist_find (cb_addr c) (c :: l) = Some c.
Proof. simpl. rewrite Z.eqb_refl. reflexivity. Qed.

Lemma qlist_find_skip c l h :
  cb_addr c <> h -> qlist_find h (c :: l) = qlist_find h l.
Proof. intros Hne. simpl. apply Z.eqb_neq in Hne. rewrite Hne. reflexivity. Qed.

Lemma qlist_remove_head c l : qlist_remove (cb_addr c) (c :: l) = l.
Proof. simpl. rewrite Z.eqb_refl. reflexivity. Qed.

Lemma qlist_remove_skip c l h :
  cb_addr c <> h -> qlist_remove h (c :: l) = c :: qlist_remove h l.
Proof. intros Hne. simpl. apply Z.eqb_neq in Hne. rewrite Hne. reflexivity. Qed.


Lemma set_list_same k l s : callback_list_heads (set_list k l s) k = l.
Proof. simpl. destruct (decide (k = k)); [reflexivity | contradiction]. Qed.

Lemma set_list_other k k' l s :
  k' <> k -> callback_list_heads (set_list k l s) k' = callback_list_heads s k'.
Proof. intros Hne. simpl. destruct (decide (k' = k)); [contradiction | reflexivity]. Qed.

End ListFacts.

(** ** Opcode ranges *)

Section OpcodeRange.
Context `{T : Target}.

(** A slot after a run of writes: the written value inside the run (and
    inside the array), the old content elsewhere. *)
Lemma foldl_insert_lookup (idx : list Z) (v : option DECAF_handle)
    (t : list (option DECAF_handle)) (i : nat) :
  (forall j, j ∈ idx -> 0 <= j) ->
  foldl (fun t j => <[Z.to_nat j := v]> t) t idx !! i
  = if decide (Z.of_nat i ∈ idx /\ (i < length t)%nat) then Some v else t !! i.
Proof.
  revert t. induction idx as [|j idx IH]; intros t Hpos; cbn [foldl].
  - rewrite decide_False; [reflexivity|]. intros [Hin _]. inversion Hin.
  - rewrite IH by (intros j' Hj'; apply Hpos; now right).
    rewrite length_insert.
    assert (0 <= j) by (apply Hpos; now left).
    destruct (decide (Z.of_nat i ∈ idx /\ (i < length t)%nat)) as [[Hin Hlt]|Hn].
    + rewrite decide_True; [reflexivity | split; [now right | exact Hlt]].
    + rewrite list_lookup_insert.
      destruct (decide (Z.to_nat j = i /\ (Z.to_nat j < length t)%nat)) as [[Hj Hlt]|Hn'].
      * rewrite decide_True; [reflexivity|]. split; [|lia].
        replace (Z.of_nat i) with j by lia. now left.
      * rewrite decide_False; [reflexivity|]. intros [Hin Hlt].
        apply elem_of_cons in Hin as [Hij|Hin]; [|tauto].
        apply Hn'. split; lia.
Qed.

Lemma fill_range_lookup (lo hi : Z) v (t : list (option DECAF_handle)) (i : nat) :
  0 <= lo ->
  fill_range lo hi v t !! i
  = if decide (lo <= Z.of_nat i <= hi /\ (i < length t)%nat) then Some v else t !! i.
Proof.
  intros Hlo. unfold fill_range. rewrite foldl_insert_lookup.
  - destruct (decide (Z.of_nat i ∈ seqZ lo (hi - lo + 1) /\ (i < length t)%nat))
      as [[Hin Hlt]|Hn].
    + apply elem_of_seqZ in Hin. rewrite decide_True; [reflexivity | lia].
    + rewrite decide_False; [reflexivity|]. intros [Hr Hlt]. apply Hn.
      split; [apply elem_of_seqZ; lia | exact Hlt].
  - intros j Hj. apply elem_of_seqZ in Hj. lia.
Qed.

Lemma fill_range_length lo hi v (t : list (option DECAF_handle)) :
  length (fill_range lo hi v t) = length t.
Proof.
  unfold fill_range. generalize (seqZ lo (hi - lo + 1)). intros idx. revert t.
  induction idx as [|j idx IH]; intros t; simpl; [reflexivity|].
  rewrite IH. apply length_insert.
Qed.

Lemma normalize_opcode_small op : op < 0x0f00 -> normalize_opcode op = op.
Proof. intros H. unfold normalize_opcode. destruct (Z.leb_spec 0x0f00 op); [lia | reflexivity]. Qed.

(** C8.  A registration of an opcode range whose end is below its start
    returns the null handle and leaves the whole state as it was: the
    opcode table, every callback list, the filter tables, and the log of
    cache flushes, to which nothing is added. *)
Theorem opcode_range_rejected (handler : Z) (condition : option Z)
    (start_opcode end_opcode : Z) (fresh : callback_struct) (s : State) :
  end_opcode < start_opcode ->
  decaf_register_opcode_range_callback handler condition start_opcode end_opcode fresh s
  = (DECAF_NULL_HANDLE, s).
Proof.
  intros Hlt. unfold decaf_register_opcode_range_callback.
  apply Z.ltb_lt in Hlt. rewrite Hlt. reflexivity.
Qed.

(** C9.  With two distinct records, a range over [0x10, 0x20) followed by
    one over [0x18, 0x28) leaves the first handle in the slots of
    [0x10, 0x18) and the second in those of [0x18, 0x28); unregistering the
    first then succeeds and empties every slot of [0x10, 0x20), the ones
    the second had taken over included, while [0x20, 0x28) keeps the
    second. *)
Theorem opcode_range_overlap (h1 h2 : Z) (c1 c2 : option Z)
    (f1 f2 : callback_struct) (s : State) :
  length (instructionCallbacks s) = 0x200%nat ->
  cb_addr f1 <> cb_addr f2 ->
  let '(a1, s1) := decaf_register_opcode_range_callback h1 c1 0x10 0x1f f1 s in
  let '(a2, s2) := decaf_register_opcode_range_callback h2 c2 0x18 0x27 f2 s1 in
  let '(r, s3) := decaf_unregister_opcode_range_callback a1 s2 in
  a1 = cb_addr f1 /\ a2 = cb_addr f2 /\
  (forall i, 0x10 <= i < 0x18 -> slot s2 i = Some (Some a1)) /\
  (forall i, 0x18 <= i < 0x28 -> slot s2 i = Some (Some a2)) /\
  r = 0 /\
  (forall i, 0x10 <= i < 0x20 -> slot s3 i = Some None) /\
  (forall i, 0x20 <= i < 0x28 -> slot s3 i = Some (Some a2)).
Proof.
  intros Hlen Hne.
  unfold decaf_register_opcode_range_callback.
  change (0x1f <? 0x10) with false. change (0x27 <? 0x18) with false.
  cbn iota. rewrite !normalize_opcode_small by lia.
  unfold decaf_unregister_opcode_range_callback.
  cbn [callback_list_heads register_decaf_flush_translation_cache
       QLIST_INSERT_HEAD set_list set_instructionCallbacks with_fields cb_addr
       instructionCallbacks].
  destruct (decide (DECAF_OPCODE_RANGE_CB = DECAF_OPCODE_RANGE_CB)); [|contradiction].
  rewrite qlist_find_skip by (cbn; congruence).
  match goal with |- context [qlist_find ?h (?c :: ?l)] =>
    change (qlist_find h (c :: l)) with (qlist_find (cb_addr c) (c :: l)) end.
  rewrite qlist_find_head.
  cbn [from to orb]. change (0x1ff <? 0x10) with false.
  change (0x1ff <? 0x1f) with false. change (0x1f <? 0x10) with false.
  cbn [orb]. unfold slot.
  repeat split; intros i Hi; state_simpl.
  - rewrite !fill_range_lookup by lia.
    rewrite decide_False by lia. rewrite decide_True by lia. reflexivity.
  - rewrite fill_range_lookup by lia.
    rewrite decide_True; [reflexivity|]. rewrite fill_range_length. lia.
  - rewrite fill_range_lookup by lia.
    rewrite decide_True; [reflexivity|]. rewrite !fill_range_length. lia.
  - rewrite fill_range_lookup by lia.
    rewrite decide_False by lia. rewrite fill_range_lookup by lia.
    rewrite decide_True; [reflexivity|]. rewrite fill_range_length. lia.
Qed.

End OpcodeRange.

(** ** Block begin *)

Section BlockBegin.
Context `{T : Target}.

Lemma exist_new k : counting_hashtable_exist (Some counting_hashtable_new) k = false.
Proof.
  unfold counting_hashtable_exist, counting_hashtable_new.
  apply bool_decide_eq_false. rewrite lookup_empty. intros [c Hc]. discriminate.
Qed.

(** Right after [decaf_callback_init] no block begin is needed. *)
Lemma block_begin_not_needed_init s pc :
  decaf_is_block_begin_callback_needed pc (decaf_callback_init s) = false.
Proof.
  unfold decaf_is_block_begin_callback_needed. state_simpl.
  rewrite !exist_new. reflexivity.
Qed.

(** C4.  From the state [decaf_callback_init] leaves, registering one
    block-begin callback of class [OCB_ALL] issues exactly one flush, of
    the whole cache, and makes [decaf_is_block_begin_callback_needed] true
    at every address; unregistering the handle it returned succeeds, issues
    exactly one more flush of the whole cache, and makes the query false at
    every address again. *)
Theorem global_block_begin_round_trip (cb_func : Z) (cb_cond : option Z)
    (addr : gva_t) (fresh : callback_struct) (s : State) :
  let s0 := decaf_callback_init s in
  let '(h, s1) :=
    decaf_register_optimized_block_begin_callback cb_func cb_cond addr OCB_ALL fresh s0 in
  let '(r, s2) := decaf_unregister_optimized_block_begin_callback h s1 in
  (forall pc, decaf_is_block_begin_callback_needed pc s0 = false) /\
  issues s0 s1 [(ALL_CACHE, 0)] /\
  (forall pc, decaf_is_block_begin_callback_needed pc s1 = true) /\
  r = 0 /\
  issues s1 s2 [(ALL_CACHE, 0)] /\
  (forall pc, decaf_is_block_begin_callback_needed pc s2 = false).
Proof.
  unfold decaf_register_optimized_block_begin_callback,
    decaf_unregister_optimized_block_begin_callback, issues.
  rewrite decide_False by discriminate. cbn iota. state_simpl.
  change (0 + 1 =? 1) with true. unfold flush_if. state_simpl.
  destruct (decide (DECAF_BLOCK_BEGIN_CB = DECAF_BLOCK_BEGIN_CB)); [|contradiction].
  match goal with |- context [qlist_find ?h (?c :: ?l)] =>
    change (qlist_find h (c :: l)) with (qlist_find (cb_addr c) (c :: l)) end.
  rewrite qlist_find_head. state_simpl. change (0 + 1 - 1 =? 0) with true.
  cbn iota. state_simpl.
  repeat split; intros pc; unfold decaf_is_block_begin_callback_needed;
    state_simpl; rewrite ?exist_new; reflexivity.
Qed.

(** One registration of class [OCB_PAGE], written as a state update. *)
Lemma bb_register_page_step cb_func cb_cond addr fresh s t :
  pOBBPageTable s = Some t ->
  decaf_register_optimized_block_begin_callback cb_func cb_cond addr OCB_PAGE fresh s
  = (cb_addr fresh,
     QLIST_INSERT_HEAD DECAF_BLOCK_BEGIN_CB
       (with_fields fresh cb_cond addr INV_ADDR OCB_PAGE cb_func)
       (flush_if (count t (page addr) + 1 =? 1) PAGE_LEVEL (page addr)
          (set_pOBBPageTable (Some (snd (table_add t (page addr)))) s))).
Proof.
  intros Ht. unfold decaf_register_optimized_block_begin_callback.
  rewrite decide_False by discriminate. cbn iota. rewrite Ht.
  rewrite hashtable_add_Some. reflexivity.
Qed.

(** One unregistration of a record of class [OCB_PAGE]. *)
Lemma bb_unregister_page_step handle cb s t :
  qlist_find handle (callback_list_heads s DECAF_BLOCK_BEGIN_CB) = Some cb ->
  ocb_type cb = OCB_PAGE ->
  pOBBPageTable s = Some t ->
  decaf_unregister_optimized_block_begin_callback handle s
  = (0, QLIST_REMOVE DECAF_BLOCK_BEGIN_CB handle
          (flush_if (Z.max 0 (count t (from cb) - 1) =? 0) PAGE_LEVEL (from cb)
             (set_pOBBPageTable (Some (snd (table_remove t (from cb)))) s))).
Proof.
  intros Hf Hty Ht. unfold decaf_unregister_optimized_block_begin_callback.
  rewrite Hf, Hty, Ht. rewrite hashtable_remove_Some. reflexivity.
Qed.

(** One unregistration of a record of any other class: the switch has no
    case for it but [default], which is the [OCB_ALL] one. *)
Lemma bb_unregister_default_step handle cb s :
  qlist_find handle (callback_list_heads s DECAF_BLOCK_BEGIN_CB) = Some cb ->
  ocb_type cb <> OCB_PAGE ->
  decaf_unregister_optimized_block_begin_callback handle s
  = (0, QLIST_REMOVE DECAF_BLOCK_BEGIN_CB handle
          (let n := enableAllBlockBeginCallbacksCount s - 1 in
           if n =? 0 then
             register_decaf_flush_translation_cache ALL_CACHE 0 (set_bb_all false n s)
           else if n <? 0 then set_bb_all (bEnableAllBlockBeginCallbacks s) 0 s
           else set_bb_all (bEnableAllBlockBeginCallbacks s) n s)).
Proof.
  intros Hf Hty. unfold decaf_unregister_optimized_block_begin_callback.
  rewrite Hf. cbv zeta.
  destruct (ocb_type cb); try contradiction;
    destruct (_ =? 0); try reflexivity; destruct (_ <? 0); reflexivity.
Qed.


Lemma count_new k : count counting_hashtable_new k = 0.
Proof. unfold count, counting_hashtable_new. rewrite lookup_empty. reflexivity. Qed.

(** C7, on the code.  Two [OCB_PAGE] registrations at an address [addr]
    that is not the start of its page, after [decaf_callback_init]: the
    first flushes the page and the second nothing, but the first
    unregistration looks up the unmasked [addr] in a table keyed by pages,
    finds no count, and flushes at [addr]; the second does the same.  The
    count of the page stays at 2 and the query stays true once both records
    are gone. *)
Theorem page_block_begin_unmasked_unregister (fn1 fn2 : Z) (c1 c2 : option Z)
    (addr : gva_t) (f1 f2 : callback_struct) (s : State) :
  page addr <> addr ->
  cb_addr f1 <> cb_addr f2 ->
  let s0 := decaf_callback_init s in
  let '(h1, s1) :=
    decaf_register_optimized_block_begin_callback fn1 c1 addr OCB_PAGE f1 s0 in
  let '(h2, s2) :=
    decaf_register_optimized_block_begin_callback fn2 c2 addr OCB_PAGE f2 s1 in
  let '(r3, s3) := decaf_unregister_optimized_block_begin_callback h1 s2 in
  let '(r4, s4) := decaf_unregister_optimized_block_begin_callback h2 s3 in
  issues s0 s1 [(PAGE_LEVEL, page addr)] /\
  issues s1 s2 [] /\
  count_at (pOBBPageTable s2) (page addr) = 2 /\
  r3 = 0 /\
  issues s2 s3 [(PAGE_LEVEL, addr)] /\
  count_at (pOBBPageTable s3) (page addr) = 2 /\
  r4 = 0 /\
  issues s3 s4 [(PAGE_LEVEL, addr)] /\
  callback_list_heads s4 DECAF_BLOCK_BEGIN_CB = [] /\
  count_at (pOBBPageTable s4) (page addr) = 2 /\
  decaf_is_block_begin_callback_needed addr s4 = true.
Proof.
  intros Hun Hne. cbv zeta.
  rewrite (bb_register_page_step _ _ _ _ _ counting_hashtable_new) by reflexivity.
  set (t1 := snd (table_add counting_hashtable_new (page addr))).
  assert (Hc1 : count t1 (page addr) = 1)
    by (unfold t1; rewrite table_add_count_eq, count_new; reflexivity).
  assert (Hc1' : count t1 addr = 0)
    by (unfold t1; rewrite table_add_count_ne, count_new; [reflexivity | exact Hun]).
  rewrite count_new. change (0 + 1 =? 1) with true.
  rewrite (bb_register_page_step _ _ _ _ _ t1) by reflexivity.
  set (t2 := snd (table_add t1 (page addr))).
  assert (Hc2 : count t2 (page addr) = 2)
    by (unfold t2; rewrite table_add_count_eq, Hc1; reflexivity).
  assert (Hc2' : count t2 addr = 0)
    by (unfold t2; rewrite table_add_count_ne, Hc1'; [reflexivity | exact Hun]).
  rewrite Hc1. change (1 + 1 =? 1) with false.
  set (r1 := with_fields f1 c1 addr INV_ADDR OCB_PAGE fn1).
  set (r2 := with_fields f2 c2 addr INV_ADDR OCB_PAGE fn2).
  rewrite (bb_unregister_page_step _ r1 _ t2); cycle 1.
  { state_read. destruct (decide (DECAF_BLOCK_BEGIN_CB = DECAF_BLOCK_BEGIN_CB)); [|contradiction].
    rewrite qlist_find_skip by (cbn; congruence). apply (qlist_find_head r1). }
  { reflexivity. }
  { reflexivity. }
  cbn [from r1 with_fields]. rewrite Hc2'. change (Z.max 0 (0 - 1) =? 0) with true.
  set (t3 := snd (table_remove t2 addr)).
  assert (Hc3 : count t3 (page addr) = 2)
    by (unfold t3; rewrite table_remove_count_ne, Hc2; [reflexivity | congruence]).
  assert (Hc3' : count t3 addr = 0)
    by (unfold t3; rewrite table_remove_count_eq, Hc2'; reflexivity).
  rewrite (bb_unregister_page_step _ r2 _ t3); cycle 1.
  { state_read. destruct (decide (DECAF_BLOCK_BEGIN_CB = DECAF_BLOCK_BEGIN_CB)); [|contradiction].
    rewrite qlist_remove_skip by (cbn; congruence).
    change (cb_addr f1) with (cb_addr r1). rewrite qlist_remove_head.
    apply (qlist_find_head r2). }
  { reflexivity. }
  { reflexivity. }
  cbn [from r2 with_fields]. rewrite Hc3'. change (Z.max 0 (0 - 1) =? 0) with true.
  set (t4 := snd (table_remove t3 addr)).
  assert (Hc4 : count t4 (page addr) = 2)
    by (unfold t4; rewrite table_remove_count_ne, Hc3; [reflexivity | congruence]).
  unfold issues, flush_if, decaf_is_block_begin_callback_needed. state_read.
  destruct (decide (DECAF_BLOCK_BEGIN_CB = DECAF_BLOCK_BEGIN_CB)); [|contradiction].
  repeat split; try assumption; try (rewrite app_nil_r; reflexivity).
  - rewrite qlist_remove_skip by (cbn; congruence).
    change (cb_addr f1) with (cb_addr r1). rewrite qlist_remove_head.
    apply (qlist_remove_head r2).
  - assert (He : counting_hashtable_exist (Some t4) (page addr) = true)
      by (apply exist_iff_count; simpl; lia).
    rewrite He. reflexivity.
Qed.

(** X11.  For an address that is the start of its page the stored key and the
    counted key agree, and the counting is as described: of two
    registrations and two unregistrations only the first registration and
    the last unregistration flush, and the page stays needed in between. *)
Lemma page_block_begin_counting_aligned (fn1 fn2 : Z) (c1 c2 : option Z)
    (addr : gva_t) (f1 f2 : callback_struct) (s : State) :
  page addr = addr ->
  cb_addr f1 <> cb_addr f2 ->
  let s0 := decaf_callback_init s in
  let '(h1, s1) :=
    decaf_register_optimized_block_begin_callback fn1 c1 addr OCB_PAGE f1 s0 in
  let '(h2, s2) :=
    decaf_register_optimized_block_begin_callback fn2 c2 addr OCB_PAGE f2 s1 in
  let '(r3, s3) := decaf_unregister_optimized_block_begin_callback h1 s2 in
  let '(r4, s4) := decaf_unregister_optimized_block_begin_callback h2 s3 in
  issues s0 s1 [(PAGE_LEVEL, addr)] /\
  issues s1 s2 [] /\
  r3 = 0 /\
  issues s2 s3 [] /\
  (forall pc, page pc = addr -> decaf_is_block_begin_callback_needed pc s3 = true) /\
  r4 = 0 /\
  issues s3 s4 [(PAGE_LEVEL, addr)] /\
  (forall pc, decaf_is_block_begin_callback_needed pc s4 = false).
Proof.
  intros Hal Hne. cbv zeta.
  rewrite (bb_register_page_step _ _ _ _ _ counting_hashtable_new) by reflexivity.
  rewrite Hal.
  set (t1 := snd (table_add counting_hashtable_new addr)).
  assert (Hc1 : forall k, count t1 k = if decide (k = addr) then 1 else 0).
  { intros k. unfold t1. case_decide as Hk.
    - subst k. rewrite table_add_count_eq, count_new. reflexivity.
    - rewrite table_add_count_ne, count_new; [reflexivity | congruence]. }
  rewrite count_new. change (0 + 1 =? 1) with true.
  rewrite (bb_register_page_step _ _ _ _ _ t1) by reflexivity.
  rewrite Hal.
  set (t2 := snd (table_add t1 addr)).
  assert (Hc2 : forall k, count t2 k = if decide (k = addr) then 2 else 0).
  { intros k. unfold t2. case_decide as Hk.
    - subst k. rewrite table_add_count_eq, Hc1, decide_True; reflexivity.
    - rewrite table_add_count_ne, Hc1, decide_False; [reflexivity | | ]; congruence. }
  rewrite Hc1, decide_True by reflexivity. change (1 + 1 =? 1) with false.
  set (r1 := with_fields f1 c1 addr INV_ADDR OCB_PAGE fn1).
  set (r2 := with_fields f2 c2 addr INV_ADDR OCB_PAGE fn2).
  rewrite (bb_unregister_page_step _ r1 _ t2); cycle 1.
  { state_read. destruct (decide (DECAF_BLOCK_BEGIN_CB = DECAF_BLOCK_BEGIN_CB)); [|contradiction].
    rewrite qlist_find_skip by (cbn; congruence). apply (qlist_find_head r1). }
  { reflexivity. }
  { reflexivity. }
  cbn [from r1 with_fields]. rewrite Hc2, decide_True by reflexivity.
  change (Z.max 0 (2 - 1) =? 0) with false.
  set (t3 := snd (table_remove t2 addr)).
  assert (Hc3 : forall k, count t3 k = if decide (k = addr) then 1 else 0).
  { intros k. unfold t3. case_decide as Hk.
    - subst k. rewrite table_remove_count_eq, Hc2, decide_True; reflexivity.
    - rewrite table_remove_count_ne, Hc2, decide_False; [reflexivity | | ]; congruence. }
  rewrite (bb_unregister_page_step _ r2 _ t3); cycle 1.
  { state_read. destruct (decide (DECAF_BLOCK_BEGIN_CB = DECAF_BLOCK_BEGIN_CB)); [|contradiction].
    rewrite qlist_remove_skip by (cbn; congruence).
    change (cb_addr f1) with (cb_addr r1). rewrite qlist_remove_head.
    apply (qlist_find_head r2). }
  { reflexivity. }
  { reflexivity. }
  cbn [from r2 with_fields]. rewrite Hc3, decide_True by reflexivity.
  change (Z.max 0 (1 - 1) =? 0) with true.
  set (t4 := snd (table_remove t3 addr)).
  assert (Hc4 : forall k, count t4 k = 0).
  { intros k. unfold t4. destruct (decide (k = addr)) as [->|Hk].
    - rewrite table_remove_count_eq, Hc3, decide_True; reflexivity.
    - rewrite table_remove_count_ne, Hc3, decide_False; [reflexivity | | ]; congruence. }
  unfold issues, decaf_is_block_begin_callback_needed. state_read.
  repeat split; try (rewrite app_nil_r; reflexivity).
  - intros pc Hpc.
    assert (He : counting_hashtable_exist (Some t3) (page pc) = true).
    { apply exist_iff_count. cbn [count_at]. rewrite Hc3, decide_True by exact Hpc. lia. }
    rewrite He. reflexivity.
  - intros pc.
    assert (He : counting_hashtable_exist (Some t4) (page pc) = false).
    { apply not_true_is_false. rewrite exist_iff_count. cbn [count_at].
      rewrite Hc4. lia. }
    rewrite He, exist_new. reflexivity.
Qed.

(** A registration of a reserved class only inserts the record. *)
Lemma bb_register_reserved_step cb_func cb_cond addr ty fresh s :
  ty = OCB_CONST_NOT \/ ty = OCB_PAGE_NOT ->
  decaf_register_optimized_block_begin_callback cb_func cb_cond addr ty fresh s
  = (cb_addr fresh,
     QLIST_INSERT_HEAD DECAF_BLOCK_BEGIN_CB
       (with_fields fresh cb_cond addr INV_ADDR ty cb_func) s).
Proof.
  intros [-> | ->]; unfold decaf_register_optimized_block_begin_callback;
    rewrite decide_False by discriminate; reflexivity.
Qed.

(** C2, on the code.  After [decaf_callback_init], one [OCB_ALL] record and
    one record of a reserved class ([OCB_CONST_NOT] or [OCB_PAGE_NOT]) are
    registered.  Registering the reserved record issues nothing and leaves
    the global count at 1.  Unregistering it runs the [default] case:
    the global count drops to 0, the whole cache is flushed, and the query
    turns false at every address although the [OCB_ALL] record is still
    registered.  Before that, a block-begin dispatch calls the reserved
    record, when enabled, whatever the block. *)
Theorem reserved_class_unregistered_as_global (fn1 fn2 : Z) (c1 c2 : option Z)
    (a1 a2 : gva_t) (ty : OCB_t) (f1 f2 : callback_struct) (s : State) :
  ty = OCB_CONST_NOT \/ ty = OCB_PAGE_NOT ->
  cb_addr f1 <> cb_addr f2 ->
  let s0 := decaf_callback_init s in
  let '(h1, s1) :=
    decaf_register_optimized_block_begin_callback fn1 c1 a1 OCB_ALL f1 s0 in
  let '(h2, s2) :=
    decaf_register_optimized_block_begin_callback fn2 c2 a2 ty f2 s1 in
  let '(r, s3) := decaf_unregister_optimized_block_begin_callback h2 s2 in
  issues s1 s2 [] /\
  enableAllBlockBeginCallbacksCount s2 = 1 /\
  (forall pc, decaf_is_block_begin_callback_needed pc s2 = true) /\
  (forall mem cpu tb,
     is_enabled mem (with_fields f2 c2 a2 INV_ADDR ty fn2) = true ->
     invoked (with_fields f2 c2 a2 INV_ADDR ty fn2)
       (helper_decaf_invoke_block_begin_callback mem (Some cpu) (Some tb) s2)) /\
  r = 0 /\
  issues s2 s3 [(ALL_CACHE, 0)] /\
  enableAllBlockBeginCallbacksCount s3 = 0 /\
  (forall pc, decaf_is_block_begin_callback_needed pc s3 = false) /\
  callback_list_heads s3 DECAF_BLOCK_BEGIN_CB
  = [with_fields f1 c1 a1 INV_ADDR OCB_ALL fn1].
Proof.
  intros Hty Hne. cbv zeta.
  unfold decaf_register_optimized_block_begin_callback at 1.
  rewrite decide_False by discriminate. cbn iota. state_simpl.
  change (0 + 1 =? 1) with true. cbn iota.
  rewrite (bb_register_reserved_step fn2 c2 a2 ty) by exact Hty.
  set (r1 := with_fields f1 c1 a1 INV_ADDR OCB_ALL fn1).
  set (r2 := with_fields f2 c2 a2 INV_ADDR ty fn2).
  rewrite (bb_unregister_default_step _ r2); cycle 1.
  { state_read. destruct (decide (DECAF_BLOCK_BEGIN_CB = DECAF_BLOCK_BEGIN_CB)); [|contradiction].
    apply (qlist_find_head r2). }
  { cbn. destruct Hty as [-> | ->]; discriminate. }
  cbv zeta. state_simpl. change (0 + 1 - 1 =? 0) with true. cbn iota.
  unfold issues, decaf_is_block_begin_callback_needed,
    helper_decaf_invoke_block_begin_callback. state_read.
  destruct (decide (DECAF_BLOCK_BEGIN_CB = DECAF_BLOCK_BEGIN_CB)); [|contradiction].
  repeat split; try (rewrite app_nil_r; reflexivity).
  - intros mem cpu tb Hen. unfold invoked. cbn [flat_map].
    apply elem_of_app. left. unfold block_begin_body. rewrite Hen.
    replace (ocb_type r2) with ty by reflexivity.
    destruct Hty as [-> | ->]; apply list_elem_of_here.
  - change (cb_addr f2) with (cb_addr r2). apply qlist_remove_head.
Qed.

End BlockBegin.

(** ** Block end *)

Section BlockEnd.
Context `{T : Target}.

Lemma eqb_succ_one c : (c + 1 =? 1) = (c =? 0).
Proof. destruct (Z.eqb_spec (c + 1) 1), (Z.eqb_spec c 0); lia || reflexivity. Qed.

Lemma eqb_pred_zero c : 1 <= c -> (Z.max 0 (c - 1) =? 0) = (c =? 1).
Proof.
  intros H. destruct (Z.eqb_spec (Z.max 0 (c - 1)) 0), (Z.eqb_spec c 1);
    lia || reflexivity.
Qed.

Lemma max_pred c : 1 <= c -> Z.max 0 (c - 1) = c - 1.
Proof. lia. Qed.

(** The four shapes of a block-end registration, as state updates. *)
Lemma be_register_from_step fn c from fresh s t :
  from <> INV_ADDR ->
  pOBEFromPageTable s = Some t ->
  decaf_register_optimized_block_end_callback fn c from INV_ADDR fresh s
  = (cb_addr fresh,
     QLIST_INSERT_HEAD DECAF_BLOCK_END_CB (with_fields fresh c from INV_ADDR OCB_ALL fn)
       (flush_if (count t (page from) + 1 =? 1) PAGE_LEVEL from
          (set_pOBEFromPageTable (Some (snd (table_add t (page from)))) s))).
Proof.
  intros Hf Ht. unfold decaf_register_optimized_block_end_callback.
  apply Z.eqb_neq in Hf. rewrite Hf, Z.eqb_refl. cbn [andb]. rewrite Ht.
  rewrite hashtable_add_Some. reflexivity.
Qed.

Lemma be_register_to_step fn c to fresh s t :
  to <> INV_ADDR ->
  pOBEToPageTable s = Some t ->
  decaf_register_optimized_block_end_callback fn c INV_ADDR to fresh s
  = (cb_addr fresh,
     QLIST_INSERT_HEAD DECAF_BLOCK_END_CB (with_fields fresh c INV_ADDR to OCB_ALL fn)
       (flush_if (count t (page to) + 1 =? 1) ALL_CACHE 0
          (set_pOBEToPageTable (Some (snd (table_add t (page to)))) s))).
Proof.
  intros Hto Ht. unfold decaf_register_optimized_block_end_callback.
  apply Z.eqb_neq in Hto. rewrite Hto, Z.eqb_refl. cbn [andb]. rewrite Ht.
  rewrite hashtable_add_Some. reflexivity.
Qed.

Lemma be_register_pair_step fn c from to fresh s m :
  from <> INV_ADDR ->
  to <> INV_ADDR ->
  pOBEPageMap s = Some m ->
  decaf_register_optimized_block_end_callback fn c from to fresh s
  = (cb_addr fresh,
     QLIST_INSERT_HEAD DECAF_BLOCK_END_CB (with_fields fresh c from to OCB_ALL fn)
       (flush_if (count (inner m (page from)) (page to) + 1 =? 1) PAGE_LEVEL from
          (set_pOBEPageMap
             (Some (<[page from := snd (table_add (inner m (page from)) (page to))]> m))
             s))).
Proof.
  intros Hf Hto Hm. unfold decaf_register_optimized_block_end_callback.
  apply Z.eqb_neq in Hf. apply Z.eqb_neq in Hto. rewrite Hf, Hto. cbn [andb].
  rewrite Hm. rewrite hashmap_add_Some. reflexivity.
Qed.

(** The three page-keyed shapes of a block-end unregistration. *)
Lemma be_unregister_from_step handle cb s t :
  qlist_find handle (callback_list_heads s DECAF_BLOCK_END_CB) = Some cb ->
  from cb <> INV_ADDR ->
  to cb = INV_ADDR ->
  pOBEFromPageTable s = Some t ->
  decaf_unregister_optimized_block_end_callback handle s
  = (0, QLIST_REMOVE DECAF_BLOCK_END_CB handle
          (flush_if (Z.max 0 (count t (page (from cb)) - 1) =? 0)
             PAGE_LEVEL (page (from cb))
             (set_pOBEFromPageTable (Some (snd (table_remove t (page (from cb))))) s))).
Proof.
  intros Hfind Hf Hto Ht. unfold decaf_unregister_optimized_block_end_callback.
  rewrite Hfind. apply Z.eqb_neq in Hf. rewrite Hf, Hto, Z.eqb_refl. cbn [andb].
  rewrite Ht, hashtable_remove_Some. reflexivity.
Qed.

Lemma be_unregister_to_step handle cb s t :
  qlist_find handle (callback_list_heads s DECAF_BLOCK_END_CB) = Some cb ->
  from cb = INV_ADDR ->
  to cb <> INV_ADDR ->
  pOBEToPageTable s = Some t ->
  decaf_unregister_optimized_block_end_callback handle s
  = (0, QLIST_REMOVE DECAF_BLOCK_END_CB handle
          (flush_if (Z.max 0 (count t (page (to cb)) - 1) =? 0) ALL_CACHE 0
             (set_pOBEToPageTable (Some (snd (table_remove t (page (to cb))))) s))).
Proof.
  intros Hfind Hf Hto Ht. unfold decaf_unregister_optimized_block_end_callback.
  rewrite Hfind. apply Z.eqb_neq in Hto. rewrite Hf, Hto, Z.eqb_refl. cbn [andb].
  rewrite Ht, hashtable_remove_Some. reflexivity.
Qed.

Lemma be_unregister_pair_step handle cb s m :
  qlist_find handle (callback_list_heads s DECAF_BLOCK_END_CB) = Some cb ->
  from cb <> INV_ADDR ->
  to cb <> INV_ADDR ->
  pOBEPageMap s = Some m ->
  exists m',
    decaf_unregister_optimized_block_end_callback handle s
    = (0, QLIST_REMOVE DECAF_BLOCK_END_CB handle
            (flush_if
               (Z.max 0 (count (inner m (page (from cb))) (page (to cb)) - 1) =? 0)
               PAGE_LEVEL (page (from cb)) (set_pOBEPageMap (Some m') s)))
    /\ inner m' (page (from cb))
       = snd (table_remove (inner m (page (from cb))) (page (to cb))).
Proof.
  intros Hfind Hf Hto Hm. unfold decaf_unregister_optimized_block_end_callback.
  rewrite Hfind. apply Z.eqb_neq in Hf. apply Z.eqb_neq in Hto. rewrite Hf, Hto.
  cbn [andb]. rewrite Hm.
  destruct (hashmap_remove_Some m (page (from cb)) (page (to cb))) as (m' & -> & Hin).
  exists m'. split; [reflexivity | exact Hin].
Qed.

Ltac finish_up_step :=
  unfold up_step, issues; state_read; cbn [count_at pair_count_at];
  rewrite ?table_add_count_eq, ?inner_insert_eq, ?table_add_count_eq, ?eqb_succ_one;
  split; reflexivity.

Ltac finish_down_step H :=
  unfold down_step, issues; state_read; cbn [count_at pair_count_at];
  rewrite ?table_remove_count_eq, ?(eqb_pred_zero _ H), ?(max_pred _ H);
  split; reflexivity.

(** C6.  Every operation that moves a count of a page-keyed table, with
    the count [c] of the key before it.
    - Block begin, class [OCB_PAGE]: a registration takes the count of
      [page addr] to [c + 1] and flushes that page exactly when [c = 0]; an
      unregistration takes the count of the key it removes to [c - 1] and
      flushes at that key exactly when [c = 1].
    - Block end, from only: the same on the from-only table; the
      registration flushes at [from], an address of the page, and the
      unregistration at the page.
    - Block end, to only: the same counts on the to-only table, but the
      flush is of the whole cache, on registration and on unregistration.
    - Block end, from and to: the count of the pair in the page map, with a
      flush of the from page.
    In each case nothing is flushed when the count moves between two
    non-zero values. *)
Theorem page_table_transition_flushes :
  (forall cb_func cb_cond addr fresh s t,
     pOBBPageTable s = Some t ->
     let s' := snd (decaf_register_optimized_block_begin_callback
                      cb_func cb_cond addr OCB_PAGE fresh s) in
     up_step (count t (page addr)) (count_at (pOBBPageTable s') (page addr))
       s s' (PAGE_LEVEL, page addr)) /\
  (forall handle cb s t,
     qlist_find handle (callback_list_heads s DECAF_BLOCK_BEGIN_CB) = Some cb ->
     ocb_type cb = OCB_PAGE ->
     pOBBPageTable s = Some t ->
     1 <= count t (from cb) ->
     let s' := snd (decaf_unregister_optimized_block_begin_callback handle s) in
     down_step (count t (from cb)) (count_at (pOBBPageTable s') (from cb))
       s s' (PAGE_LEVEL, from cb)) /\
  (forall cb_func cb_cond from fresh s t,
     from <> INV_ADDR ->
     pOBEFromPageTable s = Some t ->
     let s' := snd (decaf_register_optimized_block_end_callback
                      cb_func cb_cond from INV_ADDR fresh s) in
     up_step (count t (page from)) (count_at (pOBEFromPageTable s') (page from))
       s s' (PAGE_LEVEL, from)) /\
  (forall handle cb s t,
     qlist_find handle (callback_list_heads s DECAF_BLOCK_END_CB) = Some cb ->
     from cb <> INV_ADDR ->
     to cb = INV_ADDR ->
     pOBEFromPageTable s = Some t ->
     1 <= count t (page (from cb)) ->
     let s' := snd (decaf_unregister_optimized_block_end_callback handle s) in
     down_step (count t (page (from cb)))
       (count_at (pOBEFromPageTable s') (page (from cb)))
       s s' (PAGE_LEVEL, page (from cb))) /\
  (forall cb_func cb_cond to fresh s t,
     to <> INV_ADDR ->
     pOBEToPageTable s = Some t ->
     let s' := snd (decaf_register_optimized_block_end_callback
                      cb_func cb_cond INV_ADDR to fresh s) in
     up_step (count t (page to)) (count_at (pOBEToPageTable s') (page to))
       s s' (ALL_CACHE, 0)) /\
  (forall handle cb s t,
     qlist_find handle (callback_list_heads s DECAF_BLOCK_END_CB) = Some cb ->
     from cb = INV_ADDR ->
     to cb <> INV_ADDR ->
     pOBEToPageTable s = Some t ->
     1 <= count t (page (to cb)) ->
     let s' := snd (decaf_unregister_optimized_block_end_callback handle s) in
     down_step (count t (page (to cb)))
       (count_at (pOBEToPageTable s') (page (to cb)))
       s s' (ALL_CACHE, 0)) /\
  (forall cb_func cb_cond from to fresh s m,
     from <> INV_ADDR ->
     to <> INV_ADDR ->
     pOBEPageMap s = Some m ->
     let s' := snd (decaf_register_optimized_block_end_callback
                      cb_func cb_cond from to fresh s) in
     up_step (count (inner m (page from)) (page to))
       (pair_count_at (pOBEPageMap s') (page from) (page to))
       s s' (PAGE_LEVEL, from)) /\
  (forall handle cb s m,
     qlist_find handle (callback_list_heads s DECAF_BLOCK_END_CB) = Some cb ->
     from cb <> INV_ADDR ->
     to cb <> INV_ADDR ->
     pOBEPageMap s = Some m ->
     1 <= count (inner m (page (from cb))) (page (to cb)) ->
     let s' := snd (decaf_unregister_optimized_block_end_callback handle s) in
     down_step (count (inner m (page (from cb))) (page (to cb)))
       (pair_count_at (pOBEPageMap s') (page (from cb)) (page (to cb)))
       s s' (PAGE_LEVEL, page (from cb))).
Proof.
  repeat apply conj.
  - intros * Ht. rewrite (bb_register_page_step _ _ _ _ _ t Ht). finish_up_step.
  - intros * Hfind Hty Ht Hc.
    rewrite (bb_unregister_page_step _ cb _ t Hfind Hty Ht). finish_down_step Hc.
  - intros * Hf Ht. rewrite (be_register_from_step _ _ _ _ _ t Hf Ht). finish_up_step.
  - intros * Hfind Hf Hto Ht Hc.
    rewrite (be_unregister_from_step _ cb _ t Hfind Hf Hto Ht). finish_down_step Hc.
  - intros * Hto Ht. rewrite (be_register_to_step _ _ _ _ _ t Hto Ht). finish_up_step.
  - intros * Hfind Hf Hto Ht Hc.
    rewrite (be_unregister_to_step _ cb _ t Hfind Hf Hto Ht). finish_down_step Hc.
  - intros * Hf Hto Hm.
    rewrite (be_register_pair_step _ _ _ _ _ _ m Hf Hto Hm). finish_up_step.
  - intros * Hfind Hf Hto Hm Hc.
    destruct (be_unregister_pair_step _ cb _ m Hfind Hf Hto Hm) as (m' & -> & Hin).
    unfold down_step, issues. state_read. cbn [pair_count_at].
    rewrite Hin, table_remove_count_eq, (eqb_pred_zero _ Hc), (max_pred _ Hc).
    split; reflexivity.
Qed.

(** C5.  [decaf_is_block_end_callback_needed] follows the rule of the
    description: true when the global flag is set; otherwise true when the
    page of [from] is in the from-only set; otherwise false when [to] is
    [INV_ADDR]; otherwise true exactly when the page of [to] is in the
    to-only set or the pair of pages is in the page map. *)
Theorem block_end_needed_decision (from to : gva_t) (s : State) :
  decaf_is_block_end_callback_needed from to s = true
  <-> block_end_needed_rule s from to.
Proof.
  unfold decaf_is_block_end_callback_needed, block_end_needed_rule.
  destruct (bEnableAllBlockEndCallbacks s); [tauto|].
  destruct (decide (in_table (pOBEFromPageTable s) (page from))) as [Hin|Hin].
  - apply exist_iff_in_table in Hin. rewrite Hin. tauto.
  - rewrite <- exist_iff_in_table in Hin. apply not_true_is_false in Hin.
    rewrite Hin.
    destruct (decide (to = INV_ADDR)) as [->|Hto].
    + rewrite Z.eqb_refl. split; [discriminate | tauto].
    + apply Z.eqb_neq in Hto. rewrite Hto.
      rewrite <- exist_iff_in_table, <- map_exist_iff_in_map.
      destruct (counting_hashtable_exist (pOBEToPageTable s) (page to)).
      * tauto.
      * split; [tauto | intros [H|H]; [discriminate | exact H]].
Qed.

(** *** Dispatch *)

(** The calls of a block-end dispatch are those of the records of the
    registry, each decided by [block_end_body]. *)
Lemma block_end_dispatch_calls mem cpu tb cur s c :
  c ∈ helper_decaf_invoke_block_end_callback mem (Some cpu) tb cur s
  <-> exists r, r ∈ callback_list_heads s DECAF_BLOCK_END_CB
             /\ c ∈ block_end_body mem cur (cpu_next_pc cpu) r.
Proof.
  unfold helper_decaf_invoke_block_end_callback.
  rewrite list_elem_of_In, in_flat_map.
  split; intros (r & Hr & Hc); exists r; rewrite ?list_elem_of_In in *; tauto.
Qed.

(** A body calls nothing but its own record. *)
Lemma block_end_body_own mem cur next r c :
  c ∈ block_end_body mem cur next r ->
  c = {| called_fn := callback r; called_via := cb_addr r |}.
Proof.
  unfold block_end_body, invoke.
  repeat match goal with |- context [if ?b then _ else _] => destruct b end;
    intros H; solve [inversion H | apply list_elem_of_singleton in H; exact H].
Qed.

(** In a registry whose records have distinct addresses, a handle names
    one record. *)
Lemma registry_handle_inj (l : list callback_struct) r r' :
  NoDup (cb_addr <$> l) -> r ∈ l -> r' ∈ l -> cb_addr r = cb_addr r' -> r = r'.
Proof.
  induction l as [|x l IH]; intros Hnd Hr Hr' Heq; [inversion Hr|].
  rewrite fmap_cons in Hnd. apply NoDup_cons in Hnd as [Hx Hnd].
  apply elem_of_cons in Hr as [->|Hr]; apply elem_of_cons in Hr' as [->|Hr'].
  - reflexivity.
  - exfalso. apply Hx. rewrite Heq. apply list_elem_of_fmap_2. exact Hr'.
  - exfalso. apply Hx. rewrite <- Heq. apply list_elem_of_fmap_2. exact Hr.
  - apply IH; assumption.
Qed.

(** A record is called by a block-end dispatch exactly when its own body
    calls it. *)
Lemma block_end_invoked_iff mem cpu tb cur s r :
  NoDup (cb_addr <$> callback_list_heads s DECAF_BLOCK_END_CB) ->
  r ∈ callback_list_heads s DECAF_BLOCK_END_CB ->
  invoked r (helper_decaf_invoke_block_end_callback mem (Some cpu) tb cur s)
  <-> block_end_body mem cur (cpu_next_pc cpu) r = invoke r.
Proof.
  intros Hnd Hr. unfold invoked. rewrite block_end_dispatch_calls. split.
  - intros (r' & Hr' & Hc). pose proof (block_end_body_own _ _ _ _ _ Hc) as Heq.
    assert (r' = r) as ->.
    { apply (registry_handle_inj _ _ _ Hnd Hr' Hr). now inversion Heq. }
    revert Hc. unfold block_end_body, invoke.
    repeat match goal with |- context [if ?b then _ else _] => destruct b end;
      intros H; solve [reflexivity | inversion H].
  - intros Hb. exists r. split; [exact Hr|]. rewrite Hb. apply list_elem_of_here.
Qed.

(** X5.  A record with only a target page is called exactly on the transitions
    that land in that page. *)
Lemma block_end_to_only_matrix mem cpu tb cur s r :
  NoDup (cb_addr <$> callback_list_heads s DECAF_BLOCK_END_CB) ->
  r ∈ callback_list_heads s DECAF_BLOCK_END_CB ->
  is_enabled mem r = true ->
  from r = INV_ADDR ->
  to r <> INV_ADDR ->
  invoked r (helper_decaf_invoke_block_end_callback mem (Some cpu) tb cur s)
  <-> page (to r) = page (cpu_next_pc cpu).
Proof.
  intros Hnd Hr Hen Hf Hto. rewrite (block_end_invoked_iff _ _ _ _ _ _ Hnd Hr).
  unfold block_end_body, invoke. rewrite Hen, Hf, Z.eqb_refl.
  apply Z.eqb_neq in Hto. rewrite Hto.
  destruct (Z.eqb_spec (page (to r)) (page (cpu_next_pc cpu))); split;
    intros; try reflexivity; try assumption; try discriminate; contradiction.
Qed.

(** X6.  A record with a source and a target page is called exactly on the
    transitions between these two pages. *)
Lemma block_end_pair_matrix mem cpu tb cur s r :
  NoDup (cb_addr <$> callback_list_heads s DECAF_BLOCK_END_CB) ->
  r ∈ callback_list_heads s DECAF_BLOCK_END_CB ->
  is_enabled mem r = true ->
  from r <> INV_ADDR ->
  to r <> INV_ADDR ->
  invoked r (helper_decaf_invoke_block_end_callback mem (Some cpu) tb cur s)
  <-> page (from r) = page cur /\ page (to r) = page (cpu_next_pc cpu).
Proof.
  intros Hnd Hr Hen Hf Hto. rewrite (block_end_invoked_iff _ _ _ _ _ _ Hnd Hr).
  unfold block_end_body, invoke. rewrite Hen.
  apply Z.eqb_neq in Hto. apply Z.eqb_neq in Hf. rewrite Hto, Hf.
  destruct (Z.eqb_spec (page (to r)) (page (cpu_next_pc cpu)));
    destruct (Z.eqb_spec (page (from r)) (page cur)); split;
    intros H; try reflexivity; try discriminate; try tauto.
Qed.

(** C1, on the code.  An enabled block-end record whose target is the
    wildcard is called on every dispatched block end: the helper never
    compares its [from] with the source of the transition, so a record
    registered for source page A is called for a transition leaving any
    other page too. *)
Theorem block_end_from_only_not_filtered (mem : Z -> Z) (cpu : CPUState)
    (tb : option TranslationBlock) (cur : gva_t) (s : State) (r : callback_struct) :
  r ∈ callback_list_heads s DECAF_BLOCK_END_CB ->
  is_enabled mem r = true ->
  to r = INV_ADDR ->
  invoked r (helper_decaf_invoke_block_end_callback mem (Some cpu) tb cur s).
Proof.
  intros Hr Hen Hto. unfold invoked. apply block_end_dispatch_calls.
  exists r. split; [exact Hr|].
  unfold block_end_body, invoke. rewrite Hen, Hto, Z.eqb_refl.
  apply list_elem_of_here.
Qed.

End BlockEnd.

(** ** Opcode-range dispatch *)

Section OpcodeDispatch.
Context `{T : Target}.

(** The helper sorts every transition into one of the four classes, by
    comparing both addresses with 0x80000000. *)
Lemma transition_class_cases eip next_eip :
  transition_class eip next_eip
  = if 0x80000000 <? eip
    then if 0x80000000 <? next_eip
         then DECAF_KERNEL_TO_KERNEL_ONLY else DECAF_KERNEL_TO_USER_ONLY
    else if 0x80000000 <? next_eip
         then DECAF_USER_TO_KERNEL_ONLY else DECAF_USER_TO_USER_ONLY.
Proof.
  unfold transition_class.
  destruct (0x80000000 <? eip), (0x80000000 <? next_eip); reflexivity.
Qed.

Lemma land_one_odd x : Z.land x 1 = if Z.odd x then 1 else 0.
Proof.
  change 1 with (Z.ones 1) at 1. rewrite Z.land_ones by lia.
  rewrite Z.pow_1_r. apply Zmod_odd.
Qed.

(** With a condition value of 0 the test keeps bit 0 of the class. *)
Lemma opcode_range_body_zero eip next_eip cb :
  DECAF_ALL <> 0 ->
  opcode_range_body 0 eip next_eip cb
  = if Z.odd (transition_class eip next_eip) then [] else invoke cb.
Proof.
  intros Hall. unfold opcode_range_body.
  assert (H0 : (0 =? DECAF_ALL) = false) by (apply Z.eqb_neq; congruence).
  rewrite H0. cbn [negb]. change (0 =? 0) with true. cbv iota.
  rewrite land_one_odd.
  destruct (Z.odd (transition_class eip next_eip)); reflexivity.
Qed.

(** With any other condition value the test never fails. *)
Lemma opcode_range_body_nonzero cond eip next_eip cb :
  cond <> 0 -> opcode_range_body cond eip next_eip cb = invoke cb.
Proof.
  intros Hc. unfold opcode_range_body. apply Z.eqb_neq in Hc. rewrite Hc.
  rewrite Z.land_0_r. change (0 =? 0) with true. cbn [negb].
  destruct (negb (cond =? DECAF_ALL)); reflexivity.
Qed.

(** C3, on the code.  When the slot of [op] holds a registered record whose
    condition value is not 0, the opcode-range helper calls the handler on
    every transition: the class of the transition is computed but the
    condition is only compared with 0, never intersected with the class. *)
Theorem opcode_range_condition_not_consulted (mem : Z -> Z) (cpu : CPUState)
    (eip next_eip op : Z) (s : State) (p q : Z) (cb : callback_struct) :
  instructionCallbacks s !! Z.to_nat op = Some (Some p) ->
  qlist_find p (callback_list_heads s DECAF_OPCODE_RANGE_CB) = Some cb ->
  enabled cb = Some q ->
  mem q <> 0 ->
  helper_decaf_invoke_opcode_range_callback mem (Some cpu) eip next_eip op s
  = Some (invoke cb).
Proof.
  intros Hslot Hfind Hen Hc. unfold helper_decaf_invoke_opcode_range_callback.
  rewrite Hslot, Hfind, Hen. rewrite opcode_range_body_nonzero by exact Hc.
  reflexivity.
Qed.

End OpcodeDispatch.

(** ** The generic interface *)

Section Generic.
Context `{T : Target}.

(** C10.  For an event kind other than block begin and block end,
    [decaf_register_callback] puts the new record at the head of the
    registry of that kind and [decaf_unregister_callback] removes the
    record the handle names, or fails without touching the state.  For
    [DECAF_TLB_EXEC_CB] neither issues a flush.  For the other kinds the
    registration flushes the whole cache exactly when the registry was
    empty before the insertion, and the unregistration exactly when the
    removal leaves it empty. *)
Theorem generic_registry_flushes (cb_type : DECAF_callback_type_t)
    (cb_func : Z) (cb_cond : option Z) (fresh : callback_struct)
    (handle : DECAF_handle) (s : State) :
  cb_type <> DECAF_BLOCK_BEGIN_CB ->
  cb_type <> DECAF_BLOCK_END_CB ->
  let registry := callback_list_heads s cb_type in
  let flush_when (b : bool) : list flush_call :=
    if decide (cb_type = DECAF_TLB_EXEC_CB) then []
    else if b then [(ALL_CACHE, 0)] else [] in
  let '(h, s1) := decaf_register_callback cb_type cb_func cb_cond fresh s in
  let '(r, s2) := decaf_unregister_callback cb_type handle s in
  h = cb_addr fresh /\
  (exists record, cb_addr record = h /\ enabled record = cb_cond
                  /\ callback record = cb_func
                  /\ callback_list_heads s1 cb_type = record :: registry) /\
  issues s s1 (flush_when (bool_decide (registry = []))) /\
  match qlist_find handle registry with
  | Some _ =>
      r = 0 /\
      callback_list_heads s2 cb_type = qlist_remove handle registry /\
      issues s s2 (flush_when (bool_decide (qlist_remove handle registry = [])))
  | None => r = -1 /\ s2 = s
  end.
Proof.
  intros Hbb Hbe. cbv zeta.
  unfold decaf_register_callback, decaf_unregister_callback.
  rewrite !(decide_False (P := cb_type = DECAF_BLOCK_BEGIN_CB)) by exact Hbb.
  rewrite !(decide_False (P := cb_type = DECAF_BLOCK_END_CB)) by exact Hbe.
  unfold issues.
  destruct (qlist_find handle (callback_list_heads s cb_type)) eqn:Hfind;
    destruct (decide (cb_type = DECAF_TLB_EXEC_CB)) as [Htlb|Htlb];
    cbv beta iota; state_read; rewrite ?decide_True by reflexivity;
    rewrite ?app_nil_r;
    (split; [reflexivity|]);
    (split; [exists (with_fields fresh cb_cond (from fresh) (to fresh) (ocb_type fresh) cb_func);
             repeat split; reflexivity|]);
    repeat split; reflexivity.
Qed.

End Generic.

(** ** The properties on concrete runs *)

Section Runs.
#[local] Existing Instance target32.

(** The rejected range of the description: start 0x20, end 0x10. *)
Lemma opcode_range_rejected_witness :
  0x10 < 0x20 /\
  decaf_register_opcode_range_callback 7 (Some 5) 0x20 0x10 (sample_block 100)
    static_state
  = (DECAF_NULL_HANDLE, static_state).
Proof. split; [lia | apply opcode_range_rejected; lia]. Defined.

(** The overlap scenario run from the statics of a fresh process. *)
Lemma opcode_range_overlap_witness :
  length (instructionCallbacks static_state) = 0x200%nat /\
  cb_addr (sample_block 100) <> cb_addr (sample_block 200) /\
  let '(a1, s1) :=
    decaf_register_opcode_range_callback 1 (Some 5) 0x10 0x1f (sample_block 100)
      static_state in
  let '(a2, s2) :=
    decaf_register_opcode_range_callback 2 (Some 6) 0x18 0x27 (sample_block 200) s1 in
  let '(r, s3) := decaf_unregister_opcode_range_callback a1 s2 in
  a1 = cb_addr (sample_block 100) /\ a2 = cb_addr (sample_block 200) /\
  (forall i, 0x10 <= i < 0x18 -> slot s2 i = Some (Some a1)) /\
  (forall i, 0x18 <= i < 0x28 -> slot s2 i = Some (Some a2)) /\
  r = 0 /\
  (forall i, 0x10 <= i < 0x20 -> slot s3 i = Some None) /\
  (forall i, 0x20 <= i < 0x28 -> slot s3 i = Some (Some a2)).
Proof.
  split; [reflexivity|]. split; [cbn; lia|].
  apply (opcode_range_overlap 1 2 (Some 5) (Some 6) (sample_block 100)
           (sample_block 200) static_state); [reflexivity | cbn; lia].
Defined.

(** Two [OCB_PAGE] registrations at 0x401234, inside page 0x401000. *)
Lemma page_block_begin_unmasked_unregister_witness :
  page 0x401234 <> 0x401234 /\
  cb_addr (sample_block 100) <> cb_addr (sample_block 200) /\
  let s0 := decaf_callback_init static_state in
  let '(h1, s1) :=
    decaf_register_optimized_block_begin_callback 1 None 0x401234 OCB_PAGE
      (sample_block 100) s0 in
  let '(h2, s2) :=
    decaf_register_optimized_block_begin_callback 2 None 0x401234 OCB_PAGE
      (sample_block 200) s1 in
  let '(r3, s3) := decaf_unregister_optimized_block_begin_callback h1 s2 in
  let '(r4, s4) := decaf_unregister_optimized_block_begin_callback h2 s3 in
  issues s0 s1 [(PAGE_LEVEL, page 0x401234)] /\
  issues s1 s2 [] /\
  count_at (pOBBPageTable s2) (page 0x401234) = 2 /\
  r3 = 0 /\
  issues s2 s3 [(PAGE_LEVEL, 0x401234)] /\
  count_at (pOBBPageTable s3) (page 0x401234) = 2 /\
  r4 = 0 /\
  issues s3 s4 [(PAGE_LEVEL, 0x401234)] /\
  callback_list_heads s4 DECAF_BLOCK_BEGIN_CB = [] /\
  count_at (pOBBPageTable s4) (page 0x401234) = 2 /\
  decaf_is_block_begin_callback_needed 0x401234 s4 = true.
Proof.
  split; [vm_compute; discriminate|]. split; [cbn; lia|].
  apply (page_block_begin_unmasked_unregister 1 2 None None 0x401234
           (sample_block 100) (sample_block 200) static_state);
    [vm_compute; discriminate | cbn; lia].
Defined.

(** One [OCB_ALL] record, then one [OCB_CONST_NOT] record that is
    unregistered again. *)
Lemma reserved_class_unregistered_as_global_witness :
  (OCB_CONST_NOT = OCB_CONST_NOT \/ OCB_CONST_NOT = OCB_PAGE_NOT) /\
  cb_addr (sample_block 100) <> cb_addr (sample_block 200) /\
  let s0 := decaf_callback_init static_state in
  let '(h1, s1) :=
    decaf_register_optimized_block_begin_callback 1 None INV_ADDR OCB_ALL
      (sample_block 100) s0 in
  let '(h2, s2) :=
    decaf_register_optimized_block_begin_callback 2 None 0x5000 OCB_CONST_NOT
      (sample_block 200) s1 in
  let '(r, s3) := decaf_unregister_optimized_block_begin_callback h2 s2 in
  issues s1 s2 [] /\
  enableAllBlockBeginCallbacksCount s2 = 1 /\
  (forall pc, decaf_is_block_begin_callback_needed pc s2 = true) /\
  (forall mem cpu tb,
     is_enabled mem (with_fields (sample_block 200) None 0x5000 INV_ADDR OCB_CONST_NOT 2)
     = true ->
     invoked (with_fields (sample_block 200) None 0x5000 INV_ADDR OCB_CONST_NOT 2)
       (helper_decaf_invoke_block_begin_callback mem (Some cpu) (Some tb) s2)) /\
  r = 0 /\
  issues s2 s3 [(ALL_CACHE, 0)] /\
  enableAllBlockBeginCallbacksCount s3 = 0 /\
  (forall pc, decaf_is_block_begin_callback_needed pc s3 = false) /\
  callback_list_heads s3 DECAF_BLOCK_BEGIN_CB
  = [with_fields (sample_block 100) None INV_ADDR INV_ADDR OCB_ALL 1].
Proof.
  split; [left; reflexivity|]. split; [cbn; lia|].
  apply (reserved_class_unregistered_as_global 1 2 None None INV_ADDR 0x5000
           OCB_CONST_NOT (sample_block 100) (sample_block 200) static_state);
    [left; reflexivity | cbn; lia].
Defined.

(** A first [OCB_PAGE] registration, and the removal of the only to-only
    block-end record. *)
Lemma page_table_transition_flushes_witness :
  let s := decaf_callback_init static_state in
  let s' := snd (decaf_register_optimized_block_begin_callback
                   1 None 0x401234 OCB_PAGE (sample_block 100) s) in
  let u := snd (decaf_register_optimized_block_end_callback
                  2 None INV_ADDR 0x402468 (sample_block 200) s) in
  let u' := snd (decaf_unregister_optimized_block_end_callback 200 u) in
  pOBBPageTable s = Some counting_hashtable_new /\
  up_step (count counting_hashtable_new (page 0x401234))
    (count_at (pOBBPageTable s') (page 0x401234)) s s' (PAGE_LEVEL, page 0x401234) /\
  down_step 1 (count_at (pOBEToPageTable u') (page 0x402468)) u u' (ALL_CACHE, 0).
Proof.
  cbv zeta. split; [reflexivity|]. split.
  - apply (proj1 page_table_transition_flushes). reflexivity.
  - destruct page_table_transition_flushes as (_ & _ & _ & _ & _ & H & _).
    refine (H 200 (with_fields (sample_block 200) None INV_ADDR 0x402468 OCB_ALL 2)
              (snd (decaf_register_optimized_block_end_callback
                      2 None INV_ADDR 0x402468 (sample_block 200)
                      (decaf_callback_init static_state)))
              {[ 0x402000 := 1%positive ]} _ _ _ _ _);
      [reflexivity | reflexivity | vm_compute; discriminate | reflexivity
      | vm_compute; discriminate].
Defined.

(** A record for source page 0x401000 and a transition from 0x700000 to
    0x500000. *)
Lemma block_end_from_only_not_filtered_witness :
  let s := snd (decaf_register_optimized_block_end_callback 1 None 0x401000 INV_ADDR
                  (sample_block 100) (decaf_callback_init static_state)) in
  let r := with_fields (sample_block 100) None 0x401000 INV_ADDR OCB_ALL 1 in
  let mem := fun _ : Z => 0 in
  r ∈ callback_list_heads s DECAF_BLOCK_END_CB /\
  is_enabled mem r = true /\
  to r = INV_ADDR /\
  page 0x700000 <> page (from r) /\
  invoked r
    (helper_decaf_invoke_block_end_callback mem (Some {| cpu_next_pc := 0x500000 |})
       None 0x700000 s).
Proof.
  cbv zeta. split; [vm_compute; apply list_elem_of_here|].
  split; [reflexivity|]. split; [reflexivity|]. split; [vm_compute; discriminate|].
  apply block_end_from_only_not_filtered;
    [vm_compute; apply list_elem_of_here | reflexivity | reflexivity].
Defined.

(** A range registered for user-to-kernel transitions only, and a
    transition inside user space. *)
Lemma opcode_range_condition_not_consulted_witness :
  let s := snd (decaf_register_opcode_range_callback 1 (Some 5) 0x10 0x1f
                  (sample_block 100) static_state) in
  let cb := with_fields (sample_block 100) (Some 5) 0x10 0x1f OCB_PAGE_NOT 1 in
  let mem := fun _ : Z => DECAF_USER_TO_KERNEL_ONLY in
  instructionCallbacks s !! Z.to_nat 0x10 = Some (Some 100) /\
  qlist_find 100 (callback_list_heads s DECAF_OPCODE_RANGE_CB) = Some cb /\
  enabled cb = Some 5 /\
  mem 5 <> 0 /\
  mem 5 <> DECAF_ALL /\
  transition_class 0x1000 0x2000 = DECAF_USER_TO_USER_ONLY /\
  condition_includes (mem 5) (transition_class 0x1000 0x2000) = false /\
  helper_decaf_invoke_opcode_range_callback mem (Some {| cpu_next_pc := 0x2000 |})
    0x1000 0x2000 0x10 s
  = Some (invoke cb).
Proof.
  cbv zeta. repeat (split; [first [reflexivity | vm_compute; discriminate]|]).
  apply (opcode_range_condition_not_consulted _ _ _ _ _ _ 100 5);
    [reflexivity | reflexivity | reflexivity | vm_compute; discriminate].
Defined.

(** One instruction-begin callback registered and unregistered. *)
Lemma generic_registry_flushes_witness :
  DECAF_INSN_BEGIN_CB <> DECAF_BLOCK_BEGIN_CB /\
  DECAF_INSN_BEGIN_CB <> DECAF_BLOCK_END_CB /\
  let s := decaf_callback_init static_state in
  let '(h, s1) := decaf_register_callback DECAF_INSN_BEGIN_CB 1 None (sample_block 100) s in
  let '(r, s2) := decaf_unregister_callback DECAF_INSN_BEGIN_CB 100 s1 in
  h = 100 /\ issues s s1 [(ALL_CACHE, 0)] /\ r = 0 /\ issues s1 s2 [(ALL_CACHE, 0)].
Proof.
  split; [discriminate|]. split; [discriminate|]. cbv zeta.
  pose proof (generic_registry_flushes DECAF_INSN_BEGIN_CB 1 None (sample_block 100)
                100 (decaf_callback_init static_state)
                ltac:(discriminate) ltac:(discriminate)) as Hreg.
  pose proof (generic_registry_flushes DECAF_INSN_BEGIN_CB 1 None (sample_block 100)
                100
                (snd (decaf_register_callback DECAF_INSN_BEGIN_CB 1 None
                        (sample_block 100) (decaf_callback_init static_state)))
                ltac:(discriminate) ltac:(discriminate)) as Hun.
  cbv zeta in Hreg, Hun.
  destruct (decaf_register_callback DECAF_INSN_BEGIN_CB 1 None (sample_block 100)
              (decaf_callback_init static_state)) as [h s1] eqn:E1.
  cbn [snd] in Hun.
  destruct (decaf_unregister_callback DECAF_INSN_BEGIN_CB 100 s1) as [r s2] eqn:E2.
  destruct (decaf_unregister_callback DECAF_INSN_BEGIN_CB 100
              (decaf_callback_init static_state)) as [r0 s0'].
  destruct (decaf_register_callback DECAF_INSN_BEGIN_CB 1 None (sample_block 100) s1)
    as [h' s1'].
  destruct Hreg as (Hh & _ & Hi & _). destruct Hun as (_ & _ & _ & Hu).
  injection E1 as <- <-.
  split; [exact Hh|]. split; [exact Hi|].
  change (qlist_find 100 _) with (Some (with_fields (sample_block 100) None 0 0 OCB_PAGE_NOT 1)) in Hu.
  destruct Hu as (Hr & _ & Hu). split; [exact Hr | exact Hu].
Defined.

End Runs.

(** ** Counting the registry *)

Section Tally.
Implicit Types (P : callback_struct -> bool) (l : list callback_struct).





(** Tallies of two predicates that agree on the list agree. *)
Lemma tally_ext P Q l : (forall c, c ∈ l -> P c = Q c) -> tally P l = tally Q l.
Proof.
  induction l as [|x l IH]; intros H; simpl; [reflexivity|].
  rewrite (H x) by left. rewrite IH; [reflexivity|]. intros c Hc. apply H. now right.
Qed.

End Tally.

Section TableFacts.
Implicit Types (t : gmap Z positive) (m : gmap Z (gmap Z positive)) (k f : Z).






(** Adding a key and removing it again gives the table back. *)
Lemma table_remove_add t k : snd (table_remove (snd (table_add t k)) k) = t.
Proof.
  unfold table_add. destruct (t !! k) as [c|] eqn:E; cbn [snd].
  - unfold table_remove. rewrite lookup_insert_eq.
    destruct (Pos.succ c) eqn:Hs; cbn [snd];
      try (rewrite <- Hs, Pos.pred_succ, insert_insert_eq; now apply insert_id).
    destruct c; discriminate.
  - unfold table_remove. rewrite lookup_insert_eq. cbn [snd].
    now apply delete_insert_id.
Qed.

End TableFacts.

(** ** The block-end filters follow the block-end registry *)

Section BlockEndInvariant.
Context `{T : Target}.










































(** X3.  A block-end dispatch calls every enabled record registered for the
    transition it is run for. *)
Theorem covered_block_end_record_called (mem : Z -> Z) (cpu : CPUState)
    (tb : option TranslationBlock) (cur : gva_t) (s : State) (r : callback_struct) :
  r ∈ callback_list_heads s DECAF_BLOCK_END_CB ->
  is_enabled mem r = true ->
  covers r cur (cpu_next_pc cpu) ->
  invoked r (helper_decaf_invoke_block_end_callback mem (Some cpu) tb cur s).
Proof.
  intros Hr Hen (Hfrom & Hto). unfold invoked. apply block_end_dispatch_calls.
  exists r. split; [exact Hr|]. unfold block_end_body, invoke. rewrite Hen.
  destruct (Z.eqb_spec (to r) INV_ADDR) as [Hb|Hb]; [apply list_elem_of_here|].
  destruct Hto as [Hto|[_ Hto]]; [contradiction|].
  rewrite Hto, Z.eqb_refl.
  destruct (Z.eqb_spec (from r) INV_ADDR) as [Ha|Ha]; [apply list_elem_of_here|].
  destruct Hfrom as [Hfrom|Hfrom]; [contradiction|].
  rewrite Hfrom, Z.eqb_refl. apply list_elem_of_here.
Qed.

End BlockEndInvariant.

(** ** The other block-end entry point *)

Section MatchBlockEnd.
Context `{T : Target}.

(** X7.  [decaf_register_match_block_end_callback] is
    [decaf_register_optimized_block_end_callback] with the pair of two
    wildcards refused: for that pair it returns the null handle and leaves
    the state alone, for every other pair the two functions return the
    same handle and the same state. *)
Theorem match_block_end_register_eq (fn : Z) (c : option Z) (a b : gva_t)
    (fresh : callback_struct) (s : State) :
  decaf_register_match_block_end_callback fn c a b fresh s
  = if (a =? INV_ADDR) && (b =? INV_ADDR) then (DECAF_NULL_HANDLE, s)
    else decaf_register_optimized_block_end_callback fn c a b fresh s.
Proof.
  unfold decaf_register_match_block_end_callback,
    decaf_register_optimized_block_end_callback.
  destruct ((a =? INV_ADDR) && (b =? INV_ADDR)); reflexivity.
Qed.

End MatchBlockEnd.

(** ** The global block-begin flag *)

Section BlockBeginFlag.
Context `{T : Target}.












End BlockBeginFlag.

(** ** The block-begin page filter *)

Section BlockBeginPages.
Context `{T : Target}.











End BlockBeginPages.

(** ** Handles *)

Section Handles.
Context `{T : Target}.


Lemma qlist_find_None h (l : list callback_struct) :
  (forall r, r ∈ l -> cb_addr r <> h) -> qlist_find h l = None.
Proof.
  induction l as [|c l IH]; intros H; [reflexivity|].
  rewrite qlist_find_skip by (apply H; left). apply IH.
  intros r Hr. apply H. now right.
Qed.

Lemma qlist_find_is_Some h (l : list callback_struct) :
  qlist_find h l = None -> forall r, r ∈ l -> cb_addr r <> h.
Proof.
  induction l as [|c l IH]; intros H r Hr; [inversion Hr|].
  cbn [qlist_find] in H. destruct (Z.eqb_spec (cb_addr c) h) as [He|He]; [discriminate|].
  apply elem_of_cons in Hr as [->|Hr]; [exact He | now apply IH].
Qed.

(** Once removed, a handle of a list without repeated addresses is gone. *)
Lemma qlist_find_removed h (l : list callback_struct) :
  distinct_records l -> qlist_find h (qlist_remove h l) = None.
Proof.
  unfold distinct_records. induction l as [|c l IH]; intros Hnd; [reflexivity|].
  rewrite fmap_cons in Hnd. apply NoDup_cons in Hnd as [Hc Hnd].
  destruct (Z.eqb_spec (cb_addr c) h) as [He|He].
  - subst h. rewrite qlist_remove_head. apply qlist_find_None.
    intros r Hr Heq. apply Hc. rewrite <- Heq. now apply list_elem_of_fmap_2.
  - rewrite qlist_remove_skip, qlist_find_skip by exact He. apply IH, Hnd.
Qed.

(** X13.  An unregistration with a handle that names no record of the registry
    it is looked up in returns -1 and leaves the whole state as it was:
    for [decaf_unregister_callback] with any event kind (block begin and
    block end included, where it runs the optimized functions) and for
    [decaf_unregister_opcode_range_callback]. *)
Theorem unregister_unknown_handle (k : DECAF_callback_type_t) (h : DECAF_handle)
    (s : State) :
  (forall r, r ∈ callback_list_heads s k -> cb_addr r <> h) ->
  decaf_unregister_callback k h s = (-1, s) /\
  (k = DECAF_OPCODE_RANGE_CB ->
   decaf_unregister_opcode_range_callback h s = (-1, s)).
Proof.
  intros H. apply qlist_find_None in H. split.
  - unfold decaf_unregister_callback,
      decaf_unregister_optimized_block_begin_callback,
      decaf_unregister_optimized_block_end_callback.
    repeat case_decide; subst; rewrite H; reflexivity.
  - intros ->. unfold decaf_unregister_opcode_range_callback. rewrite H. reflexivity.
Qed.

(** The list of kind [k] after a successful unregistration. *)
Lemma unregister_list k h s cb :
  qlist_find h (callback_list_heads s k) = Some cb ->
  pOBBPageTable s <> None ->
  decaf_unregister_callback k h s
  = (0, snd (decaf_unregister_callback k h s))
  /\ callback_list_heads (snd (decaf_unregister_callback k h s)) k
     = qlist_remove h (callback_list_heads s k).
Proof.
  intros Hfind Hpt.
  unfold decaf_unregister_callback,
    decaf_unregister_optimized_block_begin_callback,
    decaf_unregister_optimized_block_end_callback.
  repeat case_decide; subst; rewrite Hfind; repeat case_match; state_read;
    rewrite ?decide_True by reflexivity; try (split; reflexivity); congruence.
Qed.

(** X14.  In a registry without repeated addresses (and with the block-begin
    page table allocated), unregistering a registered handle succeeds and
    the same handle is unknown afterwards: a second unregistration returns
    -1 and changes nothing. *)
Theorem handle_dead_after_unregister (k : DECAF_callback_type_t) (h : DECAF_handle)
    (s : State) (cb : callback_struct) :
  distinct_records (callback_list_heads s k) ->
  pOBBPageTable s <> None ->
  qlist_find h (callback_list_heads s k) = Some cb ->
  let '(r1, s1) := decaf_unregister_callback k h s in
  r1 = 0 /\ decaf_unregister_callback k h s1 = (-1, s1).
Proof.
  intros Hnd Hpt Hfind.
  destruct (unregister_list k h s cb Hfind Hpt) as [He Hl].
  destruct (decaf_unregister_callback k h s) as [r1 s1]. cbn [snd] in *.
  injection He as ->. split; [reflexivity|].
  assert (Hnone : qlist_find h (callback_list_heads s1 k) = None)
    by (rewrite Hl; apply qlist_find_removed, Hnd).
  unfold decaf_unregister_callback,
    decaf_unregister_optimized_block_begin_callback,
    decaf_unregister_optimized_block_end_callback.
  repeat case_decide; subst; rewrite Hnone; reflexivity.
Qed.

(** X15.  [decaf_register_callback] cannot fail, whatever the event kind and
    whether or not [decaf_callback_init] has run: it returns the address of
    the new block as the handle, the record with the given function and
    condition is the one that handle finds in the registry of the kind,
    and [decaf_is_callback_needed] is true for the kind. *)
Theorem generic_register_succeeds (k : DECAF_callback_type_t) (fn : Z)
    (c : option Z) (fresh : callback_struct) (s : State) :
  let '(h, s') := decaf_register_callback k fn c fresh s in
  h = cb_addr fresh /\
  (exists r, qlist_find h (callback_list_heads s' k) = Some r
             /\ cb_addr r = h /\ callback r = fn /\ enabled r = c) /\
  decaf_is_callback_needed k s' = true.
Proof.
  unfold decaf_register_callback, decaf_register_optimized_block_begin_callback,
    decaf_register_optimized_block_end_callback, decaf_is_callback_needed.
  rewrite !Z.eqb_refl. cbn [andb decide]. repeat case_decide; subst; try discriminate;
    cbn iota; state_read; rewrite ?decide_True by reflexivity;
    (split; [reflexivity|]); (split; [|reflexivity]);
    eexists;
    (split; [match goal with
             | |- qlist_find _ (?r :: ?l) = _ => apply (qlist_find_head r l)
             end|]); repeat split.
Qed.

(** X16.  The registrations that count into a page table return the null handle
    and leave the state alone while their table is missing, as before
    [decaf_callback_init]; an unregistration of an [OCB_PAGE] block-begin
    record then reports [NULL_POINTER_ERROR] and keeps the record. *)
Theorem registration_needs_its_table :
  (forall fn c a fresh s,
     pOBBPageTable s = None ->
     decaf_register_optimized_block_begin_callback fn c a OCB_PAGE fresh s
     = (DECAF_NULL_HANDLE, s)) /\
  (forall h cb s,
     pOBBPageTable s = None ->
     qlist_find h (callback_list_heads s DECAF_BLOCK_BEGIN_CB) = Some cb ->
     ocb_type cb = OCB_PAGE ->
     decaf_unregister_optimized_block_begin_callback h s = (NULL_POINTER_ERROR, s)) /\
  (forall fn c a fresh s,
     pOBEFromPageTable s = None -> a <> INV_ADDR ->
     decaf_register_optimized_block_end_callback fn c a INV_ADDR fresh s
     = (DECAF_NULL_HANDLE, s)) /\
  (forall fn c b fresh s,
     pOBEToPageTable s = None -> b <> INV_ADDR ->
     decaf_register_optimized_block_end_callback fn c INV_ADDR b fresh s
     = (DECAF_NULL_HANDLE, s)) /\
  (forall fn c a b fresh s,
     pOBEPageMap s = None -> a <> INV_ADDR -> b <> INV_ADDR ->
     decaf_register_optimized_block_end_callback fn c a b fresh s
     = (DECAF_NULL_HANDLE, s)).
Proof.
  repeat apply conj.
  - intros * Ht. unfold decaf_register_optimized_block_begin_callback.
    rewrite decide_False by discriminate. cbn iota. rewrite Ht. reflexivity.
  - intros * Ht Hf Hty. unfold decaf_unregister_optimized_block_begin_callback.
    rewrite Hf, Hty, Ht. reflexivity.
  - intros * Ht Ha. unfold decaf_register_optimized_block_end_callback.
    apply Z.eqb_neq in Ha. rewrite Ha, Z.eqb_refl. cbn [andb]. rewrite Ht. reflexivity.
  - intros * Ht Hb. unfold decaf_register_optimized_block_end_callback.
    apply Z.eqb_neq in Hb. rewrite Hb, Z.eqb_refl. cbn [andb]. rewrite Ht. reflexivity.
  - intros * Ht Ha Hb. unfold decaf_register_optimized_block_end_callback.
    apply Z.eqb_neq in Ha. apply Z.eqb_neq in Hb. rewrite Ha, Hb. cbn [andb].
    rewrite Ht. reflexivity.
Qed.

End Handles.

(** ** Opcode ranges, in general *)

Section OpcodeRangeGeneral.
Context `{T : Target}.

Lemma land_pow2_mod (y : Z) : Z.land 0x100 (y mod 0x100) = 0.
Proof.
  change 0x100 with (2 ^ 8). apply Z.bits_inj'. intros n Hn.
  rewrite Z.land_spec, Z.bits_0.
  destruct (Z.ltb_spec n 8) as [Hlt|Hge].
  - rewrite Z.pow2_bits_false by lia. reflexivity.
  - rewrite Z.mod_pow2_bits_high by lia. apply andb_false_r.
Qed.

Lemma normalize_opcode_arith (op : Z) :
  normalize_opcode op = if 0x0f00 <=? op then 0x100 + op mod 0x100 else op.
Proof.
  assert (He : Z.lor 0x100 (Z.land op 0xff) = 0x100 + op mod 0x100).
  { change 0xff with (Z.ones 8). rewrite Z.land_ones by lia. change (2 ^ 8) with 0x100.
    rewrite <- (Z.add_lor_land 0x100 (op mod 0x100)), land_pow2_mod. lia. }
  unfold normalize_opcode. rewrite He. reflexivity.
Qed.

Lemma normalize_opcode_nonneg op : 0 <= op -> 0 <= normalize_opcode op.
Proof.
  intros H. rewrite normalize_opcode_arith.
  destruct (0x0f00 <=? op); [|exact H].
  pose proof (Z.mod_pos_bound op 0x100). lia.
Qed.

(** X17.  An opcode of 0x0f00 or more is stored under 0x100 plus its low byte,
    so it lands in the upper half of the table whatever its high byte, and
    two such opcodes with the same low byte share a slot; a smaller opcode
    is stored under itself. *)
Theorem normalize_opcode_two_byte (op op' : Z) :
  normalize_opcode op = (if 0x0f00 <=? op then 0x100 + op mod 0x100 else op) /\
  (0x0f00 <= op -> 0x100 <= normalize_opcode op < 0x200) /\
  (0x0f00 <= op -> 0x0f00 <= op' -> op mod 0x100 = op' mod 0x100 ->
   normalize_opcode op = normalize_opcode op').
Proof.
  rewrite !normalize_opcode_arith. split; [reflexivity|]. split.
  - intros H. apply Z.leb_le in H. rewrite H.
    pose proof (Z.mod_pos_bound op 0x100). lia.
  - intros H H' Hm. apply Z.leb_le in H. apply Z.leb_le in H'. rewrite H, H', Hm.
    reflexivity.
Qed.

(** A registration that passes the test on its bounds, as a state update. *)
Lemma opcode_register_step h c a b fresh s :
  a <= b ->
  decaf_register_opcode_range_callback h c a b fresh s
  = (cb_addr fresh,
     register_decaf_flush_translation_cache ALL_CACHE 0
       (QLIST_INSERT_HEAD DECAF_OPCODE_RANGE_CB
          (with_fields fresh c (normalize_opcode a) (normalize_opcode b)
             (ocb_type fresh) h)
          (set_instructionCallbacks
             (fill_range (normalize_opcode a) (normalize_opcode b)
                (Some (cb_addr fresh)) (instructionCallbacks s)) s))).
Proof.
  intros Hab. unfold decaf_register_opcode_range_callback.
  destruct (Z.ltb_spec b a); [lia | reflexivity].
Qed.

(** X18.  A registration of an opcode range whose stored bounds lie in the
    table writes the handle into exactly the slots between the stored
    bounds, issues one flush of the whole cache, puts its record at the
    head of the opcode registry, and makes
    [decaf_is_callback_needed_for_opcode] true on those slots. *)
Theorem opcode_range_register_effect (h : Z) (c : option Z) (a b : Z)
    (fresh : callback_struct) (s : State) :
  length (instructionCallbacks s) = 0x200%nat ->
  0 <= a <= b ->
  normalize_opcode b < 0x200 ->
  let lo := normalize_opcode a in
  let hi := normalize_opcode b in
  let '(handle, s') := decaf_register_opcode_range_callback h c a b fresh s in
  handle = cb_addr fresh /\
  issues s s' [(ALL_CACHE, 0)] /\
  callback_list_heads s' DECAF_OPCODE_RANGE_CB
  = with_fields fresh c lo hi (ocb_type fresh) h
    :: callback_list_heads s DECAF_OPCODE_RANGE_CB /\
  (forall i, 0 <= i ->
     slot s' i = if decide (lo <= i <= hi) then Some (Some handle) else slot s i) /\
  (forall i, lo <= i <= hi -> decaf_is_callback_needed_for_opcode i s' = Some true).
Proof.
  intros Hlen Hab Hhi. cbv zeta.
  rewrite opcode_register_step by lia.
  pose proof (normalize_opcode_nonneg a ltac:(lia)) as Hlo.
  assert (Hslot : forall i, 0 <= i ->
            fill_range (normalize_opcode a) (normalize_opcode b) (Some (cb_addr fresh))
              (instructionCallbacks s) !! Z.to_nat i
            = if decide (normalize_opcode a <= i <= normalize_opcode b)
              then Some (Some (cb_addr fresh))
              else instructionCallbacks s !! Z.to_nat i).
  { intros i Hi. rewrite fill_range_lookup by exact Hlo. rewrite Z2Nat.id by exact Hi.
    destruct (decide (normalize_opcode a <= i <= normalize_opcode b)) as [Hin|Hout].
    - rewrite decide_True; [reflexivity|]. split; [exact Hin | lia].
    - rewrite decide_False; [reflexivity | tauto]. }
  unfold issues, slot, decaf_is_callback_needed_for_opcode. state_simpl.
  repeat split.
  - exact Hslot.
  - intros i Hi.
    destruct (Z.ltb_spec i 0x200); [|lia]. destruct (Z.ltb_spec i 0); [lia|].
    rewrite Hslot by lia. rewrite decide_True by exact Hi. reflexivity.
Qed.

(** X20.  A range that passes the test but whose stored end falls below its
    stored start, as when only the end is 0x0f00 or more: the registration
    is accepted, flushes the cache and writes no slot, and its handle can
    never be unregistered, the sanity check failing with -1. *)
Theorem opcode_range_inverted_by_normalization (h : Z) (c : option Z) (a b : Z)
    (fresh : callback_struct) (s : State) :
  a <= b ->
  normalize_opcode b < normalize_opcode a ->
  let '(handle, s') := decaf_register_opcode_range_callback h c a b fresh s in
  handle = cb_addr fresh /\
  issues s s' [(ALL_CACHE, 0)] /\
  instructionCallbacks s' = instructionCallbacks s /\
  qlist_find handle (callback_list_heads s' DECAF_OPCODE_RANGE_CB)
  = Some (with_fields fresh c (normalize_opcode a) (normalize_opcode b)
            (ocb_type fresh) h) /\
  decaf_unregister_opcode_range_callback handle s' = (-1, s').
Proof.
  intros Hab Hinv. rewrite opcode_register_step by exact Hab.
  set (r := with_fields fresh c (normalize_opcode a) (normalize_opcode b) (ocb_type fresh) h).
  assert (Hfind : forall l, qlist_find (cb_addr fresh) (r :: l) = Some r)
    by (intros l; apply (qlist_find_head r l)).
  unfold issues, decaf_unregister_opcode_range_callback. state_simpl.
  rewrite !decide_True by reflexivity. rewrite !Hfind. cbn [from to r with_fields].
  assert (Hs : (normalize_opcode b <? normalize_opcode a) = true) by (apply Z.ltb_lt; lia).
  rewrite Hs, !orb_true_r.
  repeat split. unfold fill_range. rewrite seqZ_nil by lia. reflexivity.
Qed.

(** X19.  Registering a range whose stored bounds lie in the table and
    unregistering the handle at once succeeds, gives the opcode registry
    back, and leaves the slots of the range empty and the others as they
    were. *)
Theorem opcode_range_register_unregister (h : Z) (c : option Z) (a b : Z)
    (fresh : callback_struct) (s : State) :
  length (instructionCallbacks s) = 0x200%nat ->
  0 <= a <= b ->
  normalize_opcode a <= normalize_opcode b < 0x200 ->
  let lo := normalize_opcode a in
  let hi := normalize_opcode b in
  let '(handle, s1) := decaf_register_opcode_range_callback h c a b fresh s in
  let '(r, s2) := decaf_unregister_opcode_range_callback handle s1 in
  r = 0 /\
  callback_list_heads s2 DECAF_OPCODE_RANGE_CB = callback_list_heads s DECAF_OPCODE_RANGE_CB /\
  issues s s2 [(ALL_CACHE, 0)] /\
  (forall i, 0 <= i ->
     slot s2 i = if decide (lo <= i <= hi) then Some None else slot s i).
Proof.
  intros Hlen Hab Hhi. cbv zeta. rewrite opcode_register_step by lia.
  pose proof (normalize_opcode_nonneg a ltac:(lia)) as Hlo.
  set (r := with_fields fresh c (normalize_opcode a) (normalize_opcode b) (ocb_type fresh) h).
  assert (Hfind : forall l, qlist_find (cb_addr fresh) (r :: l) = Some r)
    by (intros l; apply (qlist_find_head r l)).
  assert (Hrem : forall l, qlist_remove (cb_addr fresh) (r :: l) = l)
    by (intros l; apply (qlist_remove_head r l)).
  unfold decaf_unregister_opcode_range_callback. state_simpl.
  rewrite !decide_True by reflexivity. rewrite !Hfind. cbn [from to r with_fields].
  assert (H1 : (0x1ff <? normalize_opcode a) = false) by (apply Z.ltb_ge; lia).
  assert (H2 : (0x1ff <? normalize_opcode b) = false) by (apply Z.ltb_ge; lia).
  assert (H3 : (normalize_opcode b <? normalize_opcode a) = false) by (apply Z.ltb_ge; lia).
  rewrite H1, H2, H3. cbn [orb]. unfold issues, slot. state_simpl.
  rewrite !decide_True by reflexivity. rewrite Hrem.
  repeat split. intros i Hi.
  rewrite !fill_range_lookup by exact Hlo. rewrite Z2Nat.id by exact Hi.
  rewrite fill_range_length.
  destruct (decide (normalize_opcode a <= i <= normalize_opcode b)) as [Hin|Hout].
  - rewrite decide_True; [reflexivity|]. split; [exact Hin | lia].
  - rewrite !decide_False by tauto. reflexivity.
Qed.

(** X21.  In the slots of a range just registered, the dispatch helper reads the
    condition of the new record: with a NULL condition pointer, which the
    registration accepts, it dereferences NULL; with a condition holding
    [DECAF_ALL] it calls the handler whatever the two addresses. *)
Theorem opcode_range_dispatch_after_register (mem : Z -> Z) (cpu : CPUState)
    (eip next_eip op : Z) (h : Z) (c : option Z) (a b : Z)
    (fresh : callback_struct) (s : State) :
  length (instructionCallbacks s) = 0x200%nat ->
  0 <= a <= b ->
  normalize_opcode b < 0x200 ->
  normalize_opcode a <= op <= normalize_opcode b ->
  let '(handle, s') := decaf_register_opcode_range_callback h c a b fresh s in
  let out := helper_decaf_invoke_opcode_range_callback mem (Some cpu) eip next_eip op s' in
  (c = None -> out = None) /\
  (forall q, c = Some q -> mem q = DECAF_ALL ->
     out = Some [ {| called_fn := h; called_via := handle |} ]).
Proof.
  intros Hlen Hab Hhi Hop. rewrite opcode_register_step by lia. cbv zeta.
  pose proof (normalize_opcode_nonneg a ltac:(lia)) as Hlo.
  set (r := with_fields fresh c (normalize_opcode a) (normalize_opcode b) (ocb_type fresh) h).
  assert (Hfind : forall l, qlist_find (cb_addr fresh) (r :: l) = Some r)
    by (intros l; apply (qlist_find_head r l)).
  unfold helper_decaf_invoke_opcode_range_callback. state_simpl.
  rewrite fill_range_lookup by exact Hlo. rewrite Z2Nat.id by lia.
  rewrite decide_True by (split; [exact Hop | lia]).
  rewrite decide_True by reflexivity. rewrite Hfind. cbn [enabled r with_fields].
  split.
  - intros ->. reflexivity.
  - intros q -> Hq. unfold opcode_range_body. rewrite Hq, Z.eqb_refl. reflexivity.
Qed.

End OpcodeRangeGeneral.

(** ** The helpers without a filter *)

Section Walks.
Context `{T : Target}.

Lemma walk_registry_calls mem k s c :
  c ∈ walk_registry mem k s
  <-> exists r, r ∈ callback_list_heads s k /\ is_enabled mem r = true
             /\ c = {| called_fn := callback r; called_via := cb_addr r |}.
Proof.
  unfold walk_registry. rewrite list_elem_of_In, in_flat_map. split.
  - intros (r & Hr & Hc). exists r. rewrite list_elem_of_In. split; [exact Hr|].
    destruct (is_enabled mem r); [|inversion Hc]. split; [reflexivity|].
    destruct Hc as [<-|[]]. reflexivity.
  - intros (r & Hr & Hen & ->). exists r. rewrite <- list_elem_of_In.
    split; [exact Hr|]. rewrite Hen. left. reflexivity.
Qed.

Lemma walk_registry_enabled (mem : Z -> Z) (k : DECAF_callback_type_t)
    (s : State) (r : callback_struct) :
  distinct_records (callback_list_heads s k) ->
  r ∈ callback_list_heads s k ->
  invoked r (walk_registry mem k s) <-> is_enabled mem r = true.
Proof.
  intros Hnd Hr. unfold invoked. rewrite walk_registry_calls. split.
  - intros (r' & Hr' & Hen & Heq).
    assert (r' = r) as ->; [|exact Hen].
    apply (registry_handle_inj _ _ _ Hnd Hr' Hr). now inversion Heq.
  - intros Hen. exists r. tauto.
Qed.

Lemma walk_registry_register (mem : Z -> Z) (k : DECAF_callback_type_t)
    (fn : Z) (c : option Z) (fresh : callback_struct) (s : State) :
  k <> DECAF_BLOCK_BEGIN_CB ->
  k <> DECAF_BLOCK_END_CB ->
  let '(h, s') := decaf_register_callback k fn c fresh s in
  walk_registry mem k s'
  = (if match c with None => true | Some p => negb (mem p =? 0) end
     then [ {| called_fn := fn; called_via := h |} ] else [])
    ++ walk_registry mem k s /\
  (forall k', k' <> k -> walk_registry mem k' s' = walk_registry mem k' s).
Proof.
  intros Hbb Hbe. unfold decaf_register_callback.
  rewrite (decide_False (P := k = DECAF_BLOCK_BEGIN_CB)) by exact Hbb.
  rewrite (decide_False (P := k = DECAF_BLOCK_END_CB)) by exact Hbe.
  unfold walk_registry. split.
  - state_read. rewrite decide_True by reflexivity. cbn [flat_map].
    unfold is_enabled at 1. cbn [enabled with_fields].
    destruct (decide (k = DECAF_TLB_EXEC_CB)); state_read; reflexivity.
  - intros k' Hk. state_read. rewrite decide_False by exact Hk.
    destruct (decide (k = DECAF_TLB_EXEC_CB)); state_read; reflexivity.
Qed.

Lemma elem_of_qlist_remove h (l : list callback_struct) r :
  distinct_records l -> r ∈ qlist_remove h l <-> r ∈ l /\ cb_addr r <> h.
Proof.
  unfold distinct_records. induction l as [|x l IH]; intros Hnd.
  - cbn. split; [intros H; inversion H | intros [H _]; inversion H].
  - rewrite fmap_cons in Hnd. apply NoDup_cons in Hnd as [Hx Hnd].
    destruct (Z.eqb_spec (cb_addr x) h) as [He|He].
    + subst h. rewrite qlist_remove_head. rewrite elem_of_cons. split.
      * intros Hr. split; [now right|]. intros Heq. apply Hx. rewrite <- Heq.
        now apply list_elem_of_fmap_2.
      * intros [[->|Hr] Hne]; [contradiction | exact Hr].
    + rewrite qlist_remove_skip by exact He. rewrite !elem_of_cons, (IH Hnd). split.
      * intros [->|[Hr Hne]]; [split; [now left | exact He] | split; [now right | exact Hne]].
      * intros [[->|Hr] Hne]; [now left | right; tauto].
Qed.

Lemma walk_registry_unregister (mem : Z -> Z) (k : DECAF_callback_type_t)
    (h : DECAF_handle) (s : State) (cb : callback_struct) (c : cb_call) :
  k <> DECAF_BLOCK_BEGIN_CB ->
  k <> DECAF_BLOCK_END_CB ->
  distinct_records (callback_list_heads s k) ->
  qlist_find h (callback_list_heads s k) = Some cb ->
  let '(r, s') := decaf_unregister_callback k h s in
  r = 0 /\
  (c ∈ walk_registry mem k s' <-> c ∈ walk_registry mem k s /\ called_via c <> h).
Proof.
  intros Hbb Hbe Hnd Hfind. unfold decaf_unregister_callback.
  rewrite (decide_False (P := k = DECAF_BLOCK_BEGIN_CB)) by exact Hbb.
  rewrite (decide_False (P := k = DECAF_BLOCK_END_CB)) by exact Hbe.
  rewrite Hfind.
  assert (Hl : forall s0,
             callback_list_heads s0 k = qlist_remove h (callback_list_heads s k) ->
             c ∈ walk_registry mem k s0
             <-> c ∈ walk_registry mem k s /\ called_via c <> h).
  { intros s0 Hs0. rewrite !walk_registry_calls, Hs0. split.
    - intros (r & Hr & Hen & ->). apply (elem_of_qlist_remove _ _ _ Hnd) in Hr as [Hr Hne].
      split; [exists r; tauto | exact Hne].
    - intros [(r & Hr & Hen & ->) Hne]. exists r.
      split; [apply (elem_of_qlist_remove _ _ _ Hnd); tauto | tauto]. }
  destruct (decide (k = DECAF_TLB_EXEC_CB)); (split; [reflexivity|]); apply Hl;
    state_read; rewrite decide_True by reflexivity; reflexivity.
Qed.

(** Every helper returns before its walk when its arguments carry no
    event, and is the walk of the registry of its kind otherwise. *)
Lemma run_helper_walk (mem : Z -> Z) (c : helper_call) (s : State) :
  run_helper mem c s
  = if has_event c then walk_registry mem (helper_kind c) s else [].
Proof.
  destruct c as [cs|cs| | cs vaddr| | | | | | |]; try reflexivity;
    destruct cs as [cpu|]; try reflexivity.
  cbn [run_helper decaf_invoke_tlb_exec_callback has_event helper_kind].
  rewrite bool_decide_true by (exists cpu; reflexivity).
  destruct (vaddr =? 0); reflexivity.
Qed.

Lemma helper_kind_not_block (c : helper_call) :
  helper_kind c <> DECAF_BLOCK_BEGIN_CB /\ helper_kind c <> DECAF_BLOCK_END_CB.
Proof. destruct c; split; discriminate. Qed.

(** X23.  Each of the instruction, eip-check, TLB, network, memory, keystroke
    and taint helpers calls a record of the registry of its kind exactly
    when its arguments carry an event (a CPU state that is not NULL where
    it takes one, a TLB address that is not 0) and the condition of the
    record allows the call: a record whose flag reads 0 is skipped, and is
    called again once the flag is set. *)
Theorem helper_calls_enabled_records (mem : Z -> Z) (c : helper_call)
    (s : State) (r : callback_struct) :
  distinct_records (callback_list_heads s (helper_kind c)) ->
  r ∈ callback_list_heads s (helper_kind c) ->
  invoked r (run_helper mem c s)
  <-> has_event c = true /\ is_enabled mem r = true.
Proof.
  intros Hnd Hr. rewrite run_helper_walk. destruct (has_event c).
  - rewrite (walk_registry_enabled mem _ s r Hnd Hr). tauto.
  - unfold invoked. split; [intros H; inversion H | intros [H _]; discriminate H].
Qed.

(** X24.  A callback registered through [decaf_register_callback] is the first
    one the helper of its kind calls, when its condition allows it, before
    the calls the helper made already; the helpers of the other kinds call
    what they called before. *)
Theorem registered_callback_called_first (mem : Z -> Z) (c : helper_call)
    (fn : Z) (cond : option Z) (fresh : callback_struct) (s : State) :
  let '(h, s') := decaf_register_callback (helper_kind c) fn cond fresh s in
  run_helper mem c s'
  = (if has_event c
        && match cond with None => true | Some p => negb (mem p =? 0) end
     then [ {| called_fn := fn; called_via := h |} ] else [])
    ++ run_helper mem c s /\
  (forall c', helper_kind c' <> helper_kind c ->
     run_helper mem c' s' = run_helper mem c' s).
Proof.
  destruct (helper_kind_not_block c) as [Hbb Hbe].
  pose proof (walk_registry_register mem (helper_kind c) fn cond fresh s Hbb Hbe) as H.
  destruct (decaf_register_callback (helper_kind c) fn cond fresh s) as [h s'].
  destruct H as [Hk Hk']. split.
  - rewrite !run_helper_walk. destruct (has_event c); [|reflexivity].
    rewrite Hk. reflexivity.
  - intros c' Hc'. rewrite !run_helper_walk.
    destruct (has_event c'); [|reflexivity]. apply Hk', Hc'.
Qed.

(** X25.  After [decaf_unregister_callback] has removed a handle from a registry
    without repeated addresses, the helper of that kind makes the calls it
    made before except the one for that handle. *)
Theorem unregistered_callback_not_called (mem : Z -> Z) (c : helper_call)
    (h : DECAF_handle) (s : State) (cb : callback_struct) (call : cb_call) :
  distinct_records (callback_list_heads s (helper_kind c)) ->
  qlist_find h (callback_list_heads s (helper_kind c)) = Some cb ->
  let '(r, s') := decaf_unregister_callback (helper_kind c) h s in
  r = 0 /\
  (call ∈ run_helper mem c s' <-> call ∈ run_helper mem c s /\ called_via call <> h).
Proof.
  intros Hnd Hfind. destruct (helper_kind_not_block c) as [Hbb Hbe].
  pose proof (walk_registry_unregister mem (helper_kind c) h s cb call
                Hbb Hbe Hnd Hfind) as H.
  destruct (decaf_unregister_callback (helper_kind c) h s) as [r s'].
  destruct H as [Hr Hw]. split; [exact Hr|].
  rewrite !run_helper_walk. destruct (has_event c); [exact Hw|].
  split; [intros H; inversion H | intros [H _]; inversion H].
Qed.

(** *** Block begin *)

Lemma block_begin_dispatch_calls mem cpu tb s c :
  c ∈ helper_decaf_invoke_block_begin_callback mem (Some cpu) (Some tb) s
  <-> exists r, r ∈ callback_list_heads s DECAF_BLOCK_BEGIN_CB
             /\ c ∈ block_begin_body mem tb r.
Proof.
  unfold helper_decaf_invoke_block_begin_callback.
  rewrite list_elem_of_In, in_flat_map.
  split; intros (r & Hr & Hc); exists r; rewrite ?list_elem_of_In in *; tauto.
Qed.

(** X12.  A block-begin dispatch calls a record of the registry exactly when its
    condition allows it and, for a record of class [OCB_PAGE], the block
    starts in the page the record was registered for; records of the other
    classes are not filtered by address. *)
Theorem block_begin_dispatch_by_class (mem : Z -> Z) (cpu : CPUState)
    (tb : TranslationBlock) (s : State) (r : callback_struct) :
  distinct_records (callback_list_heads s DECAF_BLOCK_BEGIN_CB) ->
  r ∈ callback_list_heads s DECAF_BLOCK_BEGIN_CB ->
  invoked r (helper_decaf_invoke_block_begin_callback mem (Some cpu) (Some tb) s)
  <-> is_enabled mem r = true
      /\ (ocb_type r = OCB_PAGE -> page (from r) = page (tb_pc tb)).
Proof.
  intros Hnd Hr. unfold invoked. rewrite block_begin_dispatch_calls.
  assert (Hbody : forall r',
            {| called_fn := callback r; called_via := cb_addr r |}
              ∈ block_begin_body mem tb r' ->
            cb_addr r' = cb_addr r /\ is_enabled mem r' = true
            /\ (ocb_type r' = OCB_PAGE -> page (from r') = page (tb_pc tb))).
  { intros r'. unfold block_begin_body, invoke.
    destruct (is_enabled mem r'); [|intros H; inversion H].
    destruct (ocb_type r') eqn:Hty;
      try (intros H; apply list_elem_of_singleton in H; inversion H;
           repeat split; congruence).
    destruct (Z.eqb_spec (page (from r')) (page (tb_pc tb))); [|intros H; inversion H].
    intros H. apply list_elem_of_singleton in H. inversion H. repeat split; congruence. }
  split.
  - intros (r' & Hr' & Hc). destruct (Hbody r' Hc) as (Ha & Hen & Hp).
    assert (r' = r) as -> by (apply (registry_handle_inj _ _ _ Hnd Hr' Hr Ha)). tauto.
  - intros [Hen Hp]. exists r. split; [exact Hr|].
    unfold block_begin_body, invoke. rewrite Hen.
    destruct (ocb_type r); try apply list_elem_of_here.
    rewrite Hp by reflexivity. rewrite Z.eqb_refl. apply list_elem_of_here.
Qed.

End Walks.

(** ** Registering and unregistering at once *)

Section RoundTrips.
Context `{T : Target}.





(** X22.  An opcode-range handle unregistered through [decaf_unregister_callback]
    is taken out of the opcode registry, but the slots of its range keep
    pointing at the released record: with no other record at that address,
    a later dispatch on such a slot reads freed memory. *)
Theorem opcode_handle_generic_unregister (mem : Z -> Z) (cpu : CPUState)
    (eip next_eip op : Z) (h : Z) (c : option Z) (a b : Z)
    (fresh : callback_struct) (s : State) :
  length (instructionCallbacks s) = 0x200%nat ->
  0 <= a <= b ->
  normalize_opcode b < 0x200 ->
  normalize_opcode a <= op <= normalize_opcode b ->
  (forall r, r ∈ callback_list_heads s DECAF_OPCODE_RANGE_CB -> cb_addr r <> cb_addr fresh) ->
  let '(handle, s1) := decaf_register_opcode_range_callback h c a b fresh s in
  let '(r, s2) := decaf_unregister_callback DECAF_OPCODE_RANGE_CB handle s1 in
  r = 0 /\
  callback_list_heads s2 DECAF_OPCODE_RANGE_CB = callback_list_heads s DECAF_OPCODE_RANGE_CB /\
  slot s2 op = Some (Some handle) /\
  helper_decaf_invoke_opcode_range_callback mem (Some cpu) eip next_eip op s2 = None.
Proof.
  intros Hlen Hab Hhi Hop Hfresh. rewrite opcode_register_step by lia.
  pose proof (normalize_opcode_nonneg a ltac:(lia)) as Hlo.
  set (rec := with_fields fresh c (normalize_opcode a) (normalize_opcode b) (ocb_type fresh) h).
  unfold decaf_unregister_callback. cbn [decide].
  rewrite !decide_False by discriminate. state_simpl.
  rewrite !decide_True by reflexivity.
  rewrite (qlist_find_head rec). cbn iota. state_read.
  rewrite !decide_True by reflexivity. rewrite (qlist_remove_head rec).
  assert (Hslot : fill_range (normalize_opcode a) (normalize_opcode b) (Some (cb_addr fresh))
                    (instructionCallbacks s) !! Z.to_nat op = Some (Some (cb_addr fresh))).
  { rewrite fill_range_lookup by exact Hlo. rewrite Z2Nat.id by lia.
    rewrite decide_True; [reflexivity|]. split; [exact Hop | lia]. }
  unfold slot, helper_decaf_invoke_opcode_range_callback. state_read.
  rewrite !decide_True by reflexivity. rewrite (qlist_remove_head rec).
  rewrite Hslot, (qlist_find_None _ _ Hfresh). repeat split.
Qed.

End RoundTrips.

(** ** More concrete runs *)

Section MoreRuns.
#[local] Existing Instance target32.

(** A record for target page 0x500000 and a transition from 0x700000 into
    that page. *)
Lemma covered_block_end_record_called_witness :
  let s := snd (decaf_register_optimized_block_end_callback 1 None INV_ADDR 0x500000
                  (sample_block 100) (decaf_callback_init static_state)) in
  let r := with_fields (sample_block 100) None INV_ADDR 0x500000 OCB_ALL 1 in
  let mem := fun _ : Z => 0 in
  let cpu := {| cpu_next_pc := 0x500800 |} in
  r ∈ callback_list_heads s DECAF_BLOCK_END_CB /\
  is_enabled mem r = true /\
  covers r 0x700000 (cpu_next_pc cpu) /\
  invoked r (helper_decaf_invoke_block_end_callback mem (Some cpu) None 0x700000 s).
Proof.
  cbv zeta.
  assert (Hc : covers (with_fields (sample_block 100) None INV_ADDR 0x500000 OCB_ALL 1)
                 0x700000 0x500800).
  { split; [left; reflexivity|]. right. split; [vm_compute; discriminate | reflexivity]. }
  split; [vm_compute; apply list_elem_of_here|]. split; [reflexivity|].
  split; [exact Hc|].
  apply covered_block_end_record_called;
    [vm_compute; apply list_elem_of_here | reflexivity | exact Hc].
Defined.



(** The state with one memory-read callback, at address 100. *)
Lemma unregister_unknown_handle_witness :
  let s := snd (decaf_register_callback DECAF_MEM_READ_CB 1 None (sample_block 100)
                  (decaf_callback_init static_state)) in
  (forall r, r ∈ callback_list_heads s DECAF_MEM_READ_CB -> cb_addr r <> 200) /\
  decaf_unregister_callback DECAF_MEM_READ_CB 200 s = (-1, s).
Proof.
  cbv zeta.
  assert (H : forall r,
             r ∈ callback_list_heads
                   (snd (decaf_register_callback DECAF_MEM_READ_CB 1 None (sample_block 100)
                           (decaf_callback_init static_state))) DECAF_MEM_READ_CB ->
             cb_addr r <> 200).
  { intros r Hr. vm_compute in Hr. apply list_elem_of_singleton in Hr. subst r.
    cbn. lia. }
  split; [exact H|]. exact (proj1 (unregister_unknown_handle _ _ _ H)).
Defined.

Lemma handle_dead_after_unregister_witness :
  let s := snd (decaf_register_callback DECAF_MEM_READ_CB 1 None (sample_block 100)
                  (decaf_callback_init static_state)) in
  let cb := with_fields (sample_block 100) None 0 0 OCB_PAGE_NOT 1 in
  distinct_records (callback_list_heads s DECAF_MEM_READ_CB) /\
  pOBBPageTable s <> None /\
  qlist_find 100 (callback_list_heads s DECAF_MEM_READ_CB) = Some cb /\
  let '(r1, s1) := decaf_unregister_callback DECAF_MEM_READ_CB 100 s in
  r1 = 0 /\ decaf_unregister_callback DECAF_MEM_READ_CB 100 s1 = (-1, s1).
Proof.
  cbv zeta.
  assert (Hnd : distinct_records
                  (callback_list_heads
                     (snd (decaf_register_callback DECAF_MEM_READ_CB 1 None
                             (sample_block 100) (decaf_callback_init static_state)))
                     DECAF_MEM_READ_CB))
    by (unfold distinct_records; vm_compute; apply NoDup_singleton).
  split; [exact Hnd|]. split; [vm_compute; discriminate|]. split; [reflexivity|].
  apply (handle_dead_after_unregister DECAF_MEM_READ_CB 100 _
           (with_fields (sample_block 100) None 0 0 OCB_PAGE_NOT 1) Hnd);
    [vm_compute; discriminate | reflexivity].
Defined.

(** A page registration before [decaf_callback_init]. *)
Lemma registration_needs_its_table_witness :
  pOBBPageTable static_state = None /\
  decaf_register_optimized_block_begin_callback 1 None 0x401234 OCB_PAGE
    (sample_block 100) static_state
  = (DECAF_NULL_HANDLE, static_state).
Proof.
  split; [reflexivity|]. apply (proj1 registration_needs_its_table). reflexivity.
Defined.

(** The two-byte opcodes 0x0f10 to 0x0f1f. *)
Lemma opcode_range_register_effect_witness :
  length (instructionCallbacks static_state) = 0x200%nat /\
  0 <= 0x0f10 <= 0x0f1f /\
  normalize_opcode 0x0f1f < 0x200 /\
  let lo := normalize_opcode 0x0f10 in
  let hi := normalize_opcode 0x0f1f in
  let '(handle, s') :=
    decaf_register_opcode_range_callback 1 (Some 5) 0x0f10 0x0f1f (sample_block 100)
      static_state in
  handle = cb_addr (sample_block 100) /\
  issues static_state s' [(ALL_CACHE, 0)] /\
  callback_list_heads s' DECAF_OPCODE_RANGE_CB
  = with_fields (sample_block 100) (Some 5) lo hi (ocb_type (sample_block 100)) 1
    :: callback_list_heads static_state DECAF_OPCODE_RANGE_CB /\
  (forall i, 0 <= i ->
     slot s' i = if decide (lo <= i <= hi) then Some (Some handle)
                 else slot static_state i) /\
  (forall i, lo <= i <= hi -> decaf_is_callback_needed_for_opcode i s' = Some true).
Proof.
  split; [reflexivity|]. split; [lia|]. split; [reflexivity|].
  apply (opcode_range_register_effect 1 (Some 5) 0x0f10 0x0f1f (sample_block 100)
           static_state); [reflexivity | lia | reflexivity].
Defined.

(** Start 0x150 and end 0x0f20, stored as 0x150 and 0x120. *)
Lemma opcode_range_inverted_by_normalization_witness :
  0x150 <= 0x0f20 /\
  normalize_opcode 0x0f20 < normalize_opcode 0x150 /\
  let '(handle, s') :=
    decaf_register_opcode_range_callback 1 (Some 5) 0x150 0x0f20 (sample_block 100)
      static_state in
  handle = cb_addr (sample_block 100) /\
  issues static_state s' [(ALL_CACHE, 0)] /\
  instructionCallbacks s' = instructionCallbacks static_state /\
  qlist_find handle (callback_list_heads s' DECAF_OPCODE_RANGE_CB)
  = Some (with_fields (sample_block 100) (Some 5) (normalize_opcode 0x150)
            (normalize_opcode 0x0f20) (ocb_type (sample_block 100)) 1) /\
  decaf_unregister_opcode_range_callback handle s' = (-1, s').
Proof.
  split; [lia|]. split; [reflexivity|].
  apply (opcode_range_inverted_by_normalization 1 (Some 5) 0x150 0x0f20
           (sample_block 100) static_state); [lia | reflexivity].
Defined.

Lemma opcode_range_register_unregister_witness :
  length (instructionCallbacks static_state) = 0x200%nat /\
  0 <= 0x10 <= 0x1f /\
  normalize_opcode 0x10 <= normalize_opcode 0x1f < 0x200 /\
  let lo := normalize_opcode 0x10 in
  let hi := normalize_opcode 0x1f in
  let '(handle, s1) :=
    decaf_register_opcode_range_callback 1 (Some 5) 0x10 0x1f (sample_block 100)
      static_state in
  let '(r, s2) := decaf_unregister_opcode_range_callback handle s1 in
  r = 0 /\
  callback_list_heads s2 DECAF_OPCODE_RANGE_CB
  = callback_list_heads static_state DECAF_OPCODE_RANGE_CB /\
  issues static_state s2 [(ALL_CACHE, 0)] /\
  (forall i, 0 <= i ->
     slot s2 i = if decide (lo <= i <= hi) then Some None else slot static_state i).
Proof.
  split; [reflexivity|]. split; [lia|].
  split; [vm_compute; split; [discriminate | reflexivity]|].
  apply (opcode_range_register_unregister 1 (Some 5) 0x10 0x1f (sample_block 100)
           static_state); [reflexivity | lia | vm_compute; split; [discriminate | reflexivity]].
Defined.

(** A range registered with a NULL condition pointer. *)
Lemma opcode_range_dispatch_after_register_witness :
  let mem := fun _ : Z => 0 in
  let cpu := {| cpu_next_pc := 0x2000 |} in
  length (instructionCallbacks static_state) = 0x200%nat /\
  0 <= 0x10 <= 0x1f /\
  normalize_opcode 0x1f < 0x200 /\
  normalize_opcode 0x10 <= 0x18 <= normalize_opcode 0x1f /\
  let '(handle, s') :=
    decaf_register_opcode_range_callback 1 None 0x10 0x1f (sample_block 100)
      static_state in
  let out := helper_decaf_invoke_opcode_range_callback mem (Some cpu) 0x1000 0x2000 0x18 s' in
  ((None : option Z) = None -> out = None) /\
  (forall q, (None : option Z) = Some q -> mem q = DECAF_ALL ->
     out = Some [ {| called_fn := 1; called_via := handle |} ]).
Proof.
  cbv zeta. split; [reflexivity|]. split; [lia|]. split; [reflexivity|].
  split; [vm_compute; split; discriminate|].
  apply (opcode_range_dispatch_after_register (fun _ => 0) {| cpu_next_pc := 0x2000 |}
           0x1000 0x2000 0x18 1 None 0x10 0x1f (sample_block 100) static_state);
    [reflexivity | lia | reflexivity | vm_compute; split; discriminate].
Defined.

(** One memory-read callback whose flag, at address 5, reads 1, and a read
    of four bytes at 0x1000. *)
Lemma helper_calls_enabled_records_witness :
  let s := snd (decaf_register_callback DECAF_MEM_READ_CB 1 (Some 5) (sample_block 100)
                  (decaf_callback_init static_state)) in
  let r := with_fields (sample_block 100) (Some 5) 0 0 OCB_PAGE_NOT 1 in
  let mem := fun _ : Z => 1 in
  let c := Mem_read 0x1000 0x1000 0 4 in
  distinct_records (callback_list_heads s (helper_kind c)) /\
  r ∈ callback_list_heads s (helper_kind c) /\
  (invoked r (run_helper mem c s) <-> has_event c = true /\ is_enabled mem r = true).
Proof.
  cbv zeta.
  assert (Hnd : distinct_records
                  (callback_list_heads
                     (snd (decaf_register_callback DECAF_MEM_READ_CB 1 (Some 5)
                             (sample_block 100) (decaf_callback_init static_state)))
                     (helper_kind (Mem_read 0x1000 0x1000 0 4))))
    by (unfold distinct_records; vm_compute; apply NoDup_singleton).
  split; [exact Hnd|]. split; [vm_compute; apply list_elem_of_here|].
  apply (helper_calls_enabled_records _ (Mem_read 0x1000 0x1000 0 4) _ _ Hnd).
  vm_compute. apply list_elem_of_here.
Defined.

(** A TLB callback without a condition, and a TLB event at 0x1000. *)
Lemma unregistered_callback_not_called_witness :
  let s := snd (decaf_register_callback DECAF_TLB_EXEC_CB 1 None (sample_block 100)
                  (decaf_callback_init static_state)) in
  let cb := with_fields (sample_block 100) None 0 0 OCB_PAGE_NOT 1 in
  let mem := fun _ : Z => 0 in
  let c := Tlb_exec (Some {| cpu_next_pc := 0 |}) 0x1000 in
  let call := {| called_fn := 1; called_via := 100 |} in
  distinct_records (callback_list_heads s (helper_kind c)) /\
  qlist_find 100 (callback_list_heads s (helper_kind c)) = Some cb /\
  let '(r, s') := decaf_unregister_callback (helper_kind c) 100 s in
  r = 0 /\
  (call ∈ run_helper mem c s' <-> call ∈ run_helper mem c s /\ called_via call <> 100).
Proof.
  cbv zeta.
  assert (Hnd : distinct_records
                  (callback_list_heads
                     (snd (decaf_register_callback DECAF_TLB_EXEC_CB 1 None
                             (sample_block 100) (decaf_callback_init static_state)))
                     (helper_kind (Tlb_exec (Some {| cpu_next_pc := 0 |}) 0x1000))))
    by (unfold distinct_records; vm_compute; apply NoDup_singleton).
  split; [exact Hnd|]. split; [reflexivity|].
  apply (unregistered_callback_not_called (fun _ => 0)
           (Tlb_exec (Some {| cpu_next_pc := 0 |}) 0x1000) 100 _
           (with_fields (sample_block 100) None 0 0 OCB_PAGE_NOT 1)
           {| called_fn := 1; called_via := 100 |});
    [exact Hnd | reflexivity].
Defined.

(** An [OCB_PAGE] record for page 0x401000 and a block at 0x402000. *)
Lemma block_begin_dispatch_by_class_witness :
  let s := snd (decaf_register_optimized_block_begin_callback 1 None 0x401234 OCB_PAGE
                  (sample_block 100) (decaf_callback_init static_state)) in
  let r := with_fields (sample_block 100) None 0x401234 INV_ADDR OCB_PAGE 1 in
  let mem := fun _ : Z => 0 in
  let cpu := {| cpu_next_pc := 0 |} in
  let tb := {| tb_pc := 0x402000 |} in
  distinct_records (callback_list_heads s DECAF_BLOCK_BEGIN_CB) /\
  r ∈ callback_list_heads s DECAF_BLOCK_BEGIN_CB /\
  (invoked r (helper_decaf_invoke_block_begin_callback mem (Some cpu) (Some tb) s)
   <-> is_enabled mem r = true
       /\ (ocb_type r = OCB_PAGE -> page (from r) = page (tb_pc tb))).
Proof.
  cbv zeta.
  assert (Hnd : distinct_records
                  (callback_list_heads
                     (snd (decaf_register_optimized_block_begin_callback 1 None 0x401234
                             OCB_PAGE (sample_block 100)
                             (decaf_callback_init static_state)))
                     DECAF_BLOCK_BEGIN_CB))
    by (unfold distinct_records; vm_compute; apply NoDup_singleton).
  split; [exact Hnd|]. split; [vm_compute; apply list_elem_of_here|].
  apply (block_begin_dispatch_by_class _ _ _ _ _ Hnd). vm_compute. apply list_elem_of_here.
Defined.

Lemma opcode_handle_generic_unregister_witness :
  let mem := fun _ : Z => 15 in
  let cpu := {| cpu_next_pc := 0x2000 |} in
  length (instructionCallbacks static_state) = 0x200%nat /\
  0 <= 0x10 <= 0x1f /\
  normalize_opcode 0x1f < 0x200 /\
  normalize_opcode 0x10 <= 0x18 <= normalize_opcode 0x1f /\
  (forall r, r ∈ callback_list_heads static_state DECAF_OPCODE_RANGE_CB ->
     cb_addr r <> cb_addr (sample_block 100)) /\
  let '(handle, s1) :=
    decaf_register_opcode_range_callback 1 (Some 5) 0x10 0x1f (sample_block 100)
      static_state in
  let '(r, s2) := decaf_unregister_callback DECAF_OPCODE_RANGE_CB handle s1 in
  r = 0 /\
  callback_list_heads s2 DECAF_OPCODE_RANGE_CB
  = callback_list_heads static_state DECAF_OPCODE_RANGE_CB /\
  slot s2 0x18 = Some (Some handle) /\
  helper_decaf_invoke_opcode_range_callback mem (Some cpu) 0x1000 0x2000 0x18 s2 = None.
Proof.
  cbv zeta.
  assert (Hf : forall r, r ∈ callback_list_heads static_state DECAF_OPCODE_RANGE_CB ->
                 cb_addr r <> cb_addr (sample_block 100))
    by (intros r Hr; inversion Hr).
  split; [reflexivity|]. split; [lia|]. split; [reflexivity|].
  split; [vm_compute; split; discriminate|]. split; [exact Hf|].
  apply (opcode_handle_generic_unregister (fun _ => 15) {| cpu_next_pc := 0x2000 |}
           0x1000 0x2000 0x18 1 (Some 5) 0x10 0x1f (sample_block 100) static_state);
    [reflexivity | lia | reflexivity | vm_compute; split; discriminate | exact Hf].
Defined.

(** A record for target page 0x500000 only, and a record for the pair of
    pages 0x401000 and 0x500000, each alone in the registry. *)
Lemma block_end_to_only_matrix_witness :
  let s := snd (decaf_register_optimized_block_end_callback 1 None INV_ADDR 0x500000
                  (sample_block 100) (decaf_callback_init static_state)) in
  let r := with_fields (sample_block 100) None INV_ADDR 0x500000 OCB_ALL 1 in
  let mem := fun _ : Z => 0 in
  let cpu := {| cpu_next_pc := 0x500800 |} in
  distinct_records (callback_list_heads s DECAF_BLOCK_END_CB) /\
  r ∈ callback_list_heads s DECAF_BLOCK_END_CB /\
  is_enabled mem r = true /\
  from r = INV_ADDR /\
  to r <> INV_ADDR /\
  (invoked r (helper_decaf_invoke_block_end_callback mem (Some cpu) None 0x700000 s)
   <-> page (to r) = page (cpu_next_pc cpu)).
Proof.
  cbv zeta.
  assert (Hnd : distinct_records
                  (callback_list_heads
                     (snd (decaf_register_optimized_block_end_callback 1 None INV_ADDR
                             0x500000 (sample_block 100)
                             (decaf_callback_init static_state)))
                     DECAF_BLOCK_END_CB))
    by (unfold distinct_records; vm_compute; apply NoDup_singleton).
  split; [exact Hnd|]. split; [vm_compute; apply list_elem_of_here|].
  split; [reflexivity|]. split; [reflexivity|]. split; [vm_compute; discriminate|].
  apply (block_end_to_only_matrix _ _ _ _ _ _ Hnd);
    [vm_compute; apply list_elem_of_here | reflexivity | reflexivity
    | vm_compute; discriminate].
Defined.

Lemma block_end_pair_matrix_witness :
  let s := snd (decaf_register_optimized_block_end_callback 1 None 0x401000 0x500000
                  (sample_block 100) (decaf_callback_init static_state)) in
  let r := with_fields (sample_block 100) None 0x401000 0x500000 OCB_ALL 1 in
  let mem := fun _ : Z => 0 in
  let cpu := {| cpu_next_pc := 0x500800 |} in
  distinct_records (callback_list_heads s DECAF_BLOCK_END_CB) /\
  r ∈ callback_list_heads s DECAF_BLOCK_END_CB /\
  is_enabled mem r = true /\
  from r <> INV_ADDR /\
  to r <> INV_ADDR /\
  (invoked r (helper_decaf_invoke_block_end_callback mem (Some cpu) None 0x700000 s)
   <-> page (from r) = page 0x700000 /\ page (to r) = page (cpu_next_pc cpu)).
Proof.
  cbv zeta.
  assert (Hnd : distinct_records
                  (callback_list_heads
                     (snd (decaf_register_optimized_block_end_callback 1 None 0x401000
                             0x500000 (sample_block 100)
                             (decaf_callback_init static_state)))
                     DECAF_BLOCK_END_CB))
    by (unfold distinct_records; vm_compute; apply NoDup_singleton).
  split; [exact Hnd|]. split; [vm_compute; apply list_elem_of_here|].
  split; [reflexivity|]. split; [vm_compute; discriminate|].
  split; [vm_compute; discriminate|].
  apply (block_end_pair_matrix _ _ _ _ _ _ Hnd);
    [vm_compute; apply list_elem_of_here | reflexivity | vm_compute; discriminate
    | vm_compute; discriminate].
Defined.

(** Two [OCB_PAGE] registrations at the page start 0x401000. *)
Lemma page_block_begin_counting_aligned_witness :
  page 0x401000 = 0x401000 /\
  cb_addr (sample_block 100) <> cb_addr (sample_block 200) /\
  let s0 := decaf_callback_init static_state in
  let '(h1, s1) :=
    decaf_register_optimized_block_begin_callback 1 None 0x401000 OCB_PAGE
      (sample_block 100) s0 in
  let '(h2, s2) :=
    decaf_register_optimized_block_begin_callback 2 None 0x401000 OCB_PAGE
      (sample_block 200) s1 in
  let '(r3, s3) := decaf_unregister_optimized_block_begin_callback h1 s2 in
  let '(r4, s4) := decaf_unregister_optimized_block_begin_callback h2 s3 in
  issues s0 s1 [(PAGE_LEVEL, 0x401000)] /\
  issues s1 s2 [] /\
  r3 = 0 /\
  issues s2 s3 [] /\
  (forall pc, page pc = 0x401000 -> decaf_is_block_begin_callback_needed pc s3 = true) /\
  r4 = 0 /\
  issues s3 s4 [(PAGE_LEVEL, 0x401000)] /\
  (forall pc, decaf_is_block_begin_callback_needed pc s4 = false).
Proof.
  split; [reflexivity|]. split; [cbn; lia|].
  apply (page_block_begin_counting_aligned 1 2 None None 0x401000
           (sample_block 100) (sample_block 200) static_state);
    [reflexivity | cbn; lia].
Defined.

End MoreRuns.
